(** * A shallow embedding of the OpenID 2.0 relying party of shuaiming/openid

    The development follows the Go sources [openid.go] (association
    handshake, redirect URL construction, assertion checking) and
    [login/id.go] (session accessor).  The helpers of the package that
    [openid.go] calls but whose file is not part of the sources at hand
    (the association store, [sign], the wire codecs and [parseKeyValue])
    are modelled from the spec and marked as such.  The Go standard
    library functions used on the way (HMAC-SHA256, base64, strconv.Atoi,
    url.QueryEscape, url.Values.Encode) are written out after their Go
    definitions. *)

From Stdlib Require Import ZArith String Ascii.
From stdpp Require Import base gmap strings list.

Open Scope Z_scope.

(* ------------------------------------------------------------------ *)
(** ** Bytes *)

Module Bytes.

Definition of_Z (z : Z) : Byte.byte :=
  match Byte.of_N (Z.to_N (Z.land z 255)) with
  | Some b => b
  | None => Byte.x00
  end.

Definition to_Z (b : Byte.byte) : Z := Z.of_N (Byte.to_N b).

(** Go's [[]byte(s)] on a string. *)
Definition of_string (s : string) : list Byte.byte :=
  map Ascii.byte_of_ascii (list_ascii_of_string s).

End Bytes.

(* ------------------------------------------------------------------ *)
(** ** crypto/sha256 and crypto/hmac *)

Module SHA256.

Definition mask32 (x : Z) : Z := Z.land x (Z.ones 32).
Definition add32 (a b : Z) : Z := mask32 (a + b).
Definition rotr (n x : Z) : Z :=
  Z.lor (Z.shiftr x n) (mask32 (Z.shiftl x (32 - n))).
Definition not32 (x : Z) : Z := Z.lxor x (Z.ones 32).

Definition ch (x y z : Z) : Z := Z.lxor (Z.land x y) (Z.land (not32 x) z).
Definition maj (x y z : Z) : Z :=
  Z.lxor (Z.lxor (Z.land x y) (Z.land x z)) (Z.land y z).
Definition bsig0 (x : Z) : Z := Z.lxor (Z.lxor (rotr 2 x) (rotr 13 x)) (rotr 22 x).
Definition bsig1 (x : Z) : Z := Z.lxor (Z.lxor (rotr 6 x) (rotr 11 x)) (rotr 25 x).
Definition ssig0 (x : Z) : Z := Z.lxor (Z.lxor (rotr 7 x) (rotr 18 x)) (Z.shiftr x 3).
Definition ssig1 (x : Z) : Z := Z.lxor (Z.lxor (rotr 17 x) (rotr 19 x)) (Z.shiftr x 10).

(** The round constants (first 32 bits of the fractional parts of the
    cube roots of the first 64 primes), in decimal. *)
Definition K : list Z :=
  [1116352408; 1899447441; 3049323471; 3921009573; 961987163; 1508970993;
   2453635748; 2870763221; 3624381080; 310598401; 607225278; 1426881987;
   1925078388; 2162078206; 2614888103; 3248222580; 3835390401; 4022224774;
   264347078; 604807628; 770255983; 1249150122; 1555081692; 1996064986;
   2554220882; 2821834349; 2952996808; 3210313671; 3336571891; 3584528711;
   113926993; 338241895; 666307205; 773529912; 1294757372; 1396182291;
   1695183700; 1986661051; 2177026350; 2456956037; 2730485921; 2820302411;
   3259730800; 3345764771; 3516065817; 3600352804; 4094571909; 275423344;
   430227734; 506948616; 659060556; 883997877; 958139571; 1322822218;
   1537002063; 1747873779; 1955562222; 2024104815; 2227730452; 2361852424;
   2428436474; 2756734187; 3204031479; 3329325298].

(** The initial hash value (square roots of the first 8 primes). *)
Definition H0 : list Z :=
  [1779033703; 3144134277; 1013904242; 2773480762; 1359893119; 2600822924;
   528734635; 1541459225].

(** Big-endian words of a block of bytes (given as 8-bit integers). *)
Fixpoint be_words (bs : list Z) : list Z :=
  match bs with
  | b0 :: b1 :: b2 :: b3 :: rest =>
      Z.lor (Z.shiftl b0 24) (Z.lor (Z.shiftl b1 16) (Z.lor (Z.shiftl b2 8) b3))
        :: be_words rest
  | _ => []
  end.

Definition be32_bytes (w : Z) : list Z :=
  [Z.land (Z.shiftr w 24) 255; Z.land (Z.shiftr w 16) 255;
   Z.land (Z.shiftr w 8) 255; Z.land w 255].

Definition be64_bytes (w : Z) : list Z :=
  be32_bytes (Z.shiftr w 32) ++ be32_bytes (mask32 w).

(** Message schedule: extends the 16 block words to 64. *)
Fixpoint schedule (n : nat) (w : list Z) : list Z :=
  match n with
  | O => w
  | S n' =>
      let t := length w in
      let x := add32 (add32 (ssig1 (nth (t - 2) w 0)) (nth (t - 7) w 0))
                     (add32 (ssig0 (nth (t - 15) w 0)) (nth (t - 16) w 0)) in
      schedule n' (w ++ [x])
  end.

Definition round (s : list Z) (kw : Z * Z) : list Z :=
  match s with
  | [a; b; c; d; e; f; g; h] =>
      let t1 := add32 (add32 (add32 h (bsig1 e)) (add32 (ch e f g) kw.1)) kw.2 in
      let t2 := add32 (bsig0 a) (maj a b c) in
      [add32 t1 t2; a; b; c; add32 d t1; e; f; g]
  | _ => s
  end.

Definition compress (h : list Z) (blk : list Z) : list Z :=
  let w := schedule 48 (be_words blk) in
  let s := fold_left round (combine K w) h in
  map (fun p => add32 p.1 p.2) (combine h s).

Fixpoint blocks (fuel : nat) (data : list Z) (h : list Z) : list Z :=
  match fuel with
  | O => h
  | S f => blocks f (drop 64 data) (compress h (take 64 data))
  end.

Definition pad (msg : list Z) : list Z :=
  let l := Z.of_nat (length msg) in
  msg ++ [0x80] ++ repeat 0 (Z.to_nat ((55 - l) mod 64)) ++ be64_bytes (8 * l).

Definition digest (msg : list Z) : list Z :=
  let p := pad msg in
  concat (map be32_bytes (blocks (length p / 64) p H0)).

End SHA256.

Module HMAC.

Definition block_key (key : list Z) : list Z :=
  let k := if (64 <? length key)%nat then SHA256.digest key else key in
  k ++ repeat 0 (64 - length k).

(** [hmac.New(sha256.New, key)] fed with [msg], then [Sum(nil)]. *)
Definition hmac_sha256 (key msg : list Byte.byte) : list Byte.byte :=
  let k := block_key (map Bytes.to_Z key) in
  let inner := SHA256.digest (map (Z.lxor 0x36) k ++ map Bytes.to_Z msg) in
  map Bytes.of_Z (SHA256.digest (map (Z.lxor 0x5c) k ++ inner)).

End HMAC.

(* ------------------------------------------------------------------ *)
(** ** encoding/base64 (StdEncoding) *)

Module Base64.

Definition alphabet : string :=
  "ABCDEFGHIJKLMNOPQRSTUVWXYZabcdefghijklmnopqrstuvwxyz0123456789+/".

Definition enc_char (n : Z) : ascii :=
  match String.get (Z.to_nat n) alphabet with
  | Some c => c
  | None => "A"%char
  end.

Fixpoint enc (bs : list Z) : list ascii :=
  match bs with
  | b1 :: b2 :: b3 :: rest =>
      enc_char (Z.shiftr b1 2)
        :: enc_char (Z.lor (Z.shiftl (Z.land b1 3) 4) (Z.shiftr b2 4))
        :: enc_char (Z.lor (Z.shiftl (Z.land b2 15) 2) (Z.shiftr b3 6))
        :: enc_char (Z.land b3 63) :: enc rest
  | [b1; b2] =>
      [enc_char (Z.shiftr b1 2);
       enc_char (Z.lor (Z.shiftl (Z.land b1 3) 4) (Z.shiftr b2 4));
       enc_char (Z.shiftl (Z.land b2 15) 2); "="%char]
  | [b1] =>
      [enc_char (Z.shiftr b1 2); enc_char (Z.shiftl (Z.land b1 3) 4);
       "="%char; "="%char]
  | [] => []
  end.

(** [base64.StdEncoding.EncodeToString]. *)
Definition EncodeToString (bs : list Byte.byte) : string :=
  string_of_list_ascii (enc (map Bytes.to_Z bs)).

Definition dec_val (c : ascii) : option Z :=
  let n := Z.of_N (Ascii.N_of_ascii c) in
  if (65 <=? n) && (n <=? 90) then Some (n - 65)
  else if (97 <=? n) && (n <=? 122) then Some (n - 71)
  else if (48 <=? n) && (n <=? 57) then Some (n + 4)
  else if n =? 43 then Some 62
  else if n =? 47 then Some 63
  else None.

Definition is_pad (c : ascii) : bool := Ascii.eqb c "="%char.

(** Decoding of padded quanta; after a padded quantum the input must
    end, a quantum cut short is an error, and (the encoding not being
    strict) unused trailing bits are ignored. *)
Fixpoint dec (cs : list ascii) : option (list Z) :=
  match cs with
  | [] => Some []
  | c1 :: c2 :: c3 :: c4 :: rest =>
      match dec_val c1, dec_val c2 with
      | Some v1, Some v2 =>
          let b1 := Z.land (Z.lor (Z.shiftl v1 2) (Z.shiftr v2 4)) 255 in
          if is_pad c3 then
            (if is_pad c4 && bool_decide (rest = []) then Some [b1] else None)
          else
            match dec_val c3 with
            | None => None
            | Some v3 =>
                let b2 := Z.land (Z.lor (Z.shiftl v2 4) (Z.shiftr v3 2)) 255 in
                if is_pad c4 then
                  (if bool_decide (rest = []) then Some [b1; b2] else None)
                else
                  match dec_val c4 with
                  | None => None
                  | Some v4 =>
                      let b3 := Z.land (Z.lor (Z.shiftl v3 6) v4) 255 in
                      match dec rest with
                      | Some r => Some (b1 :: b2 :: b3 :: r)
                      | None => None
                      end
                  end
            end
      | _, _ => None
      end
  | _ => None
  end.

Definition is_newline (c : ascii) : bool :=
  Ascii.eqb c "010"%char || Ascii.eqb c "013"%char.

(** [base64.StdEncoding.DecodeString]: carriage returns and newlines are
    skipped. *)
Definition DecodeString (s : string) : option (list Byte.byte) :=
  match dec (filter (fun c => negb (is_newline c)) (list_ascii_of_string s)) with
  | Some bs => Some (map Bytes.of_Z bs)
  | None => None
  end.

End Base64.

Module Hex.
Definition digit (n : Z) : ascii :=
  match String.get (Z.to_nat n) "0123456789abcdef" with Some c => c | None => "0"%char end.
Definition of_bytes (bs : list Byte.byte) : string :=
  string_of_list_ascii
    (concat (map (fun b => let z := Bytes.to_Z b in
                           [digit (Z.shiftr z 4); digit (Z.land z 15)]) bs)).
End Hex.

(* ------------------------------------------------------------------ *)
(** ** Go strings, strconv and net/url *)

Module GoStr.

(** [strings.Split(s, sep)] for a one-character separator: an empty
    string gives [[""]]. *)
Fixpoint split_aux (sep : ascii) (cur : list ascii) (cs : list ascii) : list string :=
  match cs with
  | [] => [string_of_list_ascii (rev cur)]
  | c :: rest =>
      if Ascii.eqb c sep then string_of_list_ascii (rev cur) :: split_aux sep [] rest
      else split_aux sep (c :: cur) rest
  end.

Definition Split (s : string) (sep : ascii) : list string :=
  split_aux sep [] (list_ascii_of_string s).

(** [strings.HasPrefix] followed by slicing the prefix off. *)
Fixpoint strip_prefix (p s : string) : option string :=
  match p, s with
  | EmptyString, _ => Some s
  | String c p', String d s' => if Ascii.eqb c d then strip_prefix p' s' else None
  | String _ _, EmptyString => None
  end.

(** Cut at the first [sep]. *)
Fixpoint cut (sep : ascii) (s : string) : option (string * string) :=
  match s with
  | EmptyString => None
  | String c s' =>
      if Ascii.eqb c sep then Some (EmptyString, s')
      else match cut sep s' with
           | Some (a, b) => Some (String c a, b)
           | None => None
           end
  end.

Definition nl : string := String "010"%char EmptyString.

(** Reading a Go [map[string]string]: an absent key gives [""]. *)
Definition get (m : gmap string string) (k : string) : string :=
  match m !! k with Some v => v | None => "" end.

End GoStr.

Module Strconv.

Definition digit_val (c : ascii) : option Z :=
  let n := Z.of_N (Ascii.N_of_ascii c) in
  if (48 <=? n) && (n <=? 57) then Some (n - 48) else None.

Fixpoint digits (acc : Z) (cs : list ascii) : option Z :=
  match cs with
  | [] => Some acc
  | c :: rest =>
      match digit_val c with
      | Some d => digits (10 * acc + d) rest
      | None => None
      end
  end.

(** [strconv.Atoi] on a 64-bit platform: an optional sign, at least one
    decimal digit, and a value in the range of [int]. *)
Definition Atoi (s : string) : option Z :=
  let cs := list_ascii_of_string s in
  let '(neg, ds) :=
    match cs with
    | c :: r => if Ascii.eqb c "-"%char then (true, r)
                else if Ascii.eqb c "+"%char then (false, r) else (false, cs)
    | [] => (false, cs)
    end in
  match ds with
  | [] => None
  | _ =>
      match digits 0 ds with
      | None => None
      | Some n =>
          let v := if neg then - n else n in
          if (- 2 ^ 63 <=? v) && (v <? 2 ^ 63) then Some v else None
      end
  end.

End Strconv.

(** Go's 64-bit [int] arithmetic wraps around. *)
Definition wrap64 (x : Z) : Z :=
  let m := x mod 2 ^ 64 in if 2 ^ 63 <=? m then m - 2 ^ 64 else m.

Module URL.

Definition hex_upper (n : Z) : ascii :=
  match String.get (Z.to_nat n) "0123456789ABCDEF" with Some c => c | None => "0"%char end.

(** [shouldEscape(c, encodeQueryComponent)] is false exactly on these. *)
Definition unreserved (c : ascii) : bool :=
  let n := Z.of_N (Ascii.N_of_ascii c) in
  ((65 <=? n) && (n <=? 90)) || ((97 <=? n) && (n <=? 122)) || ((48 <=? n) && (n <=? 57))
  || (n =? 45) || (n =? 95) || (n =? 46) || (n =? 126).

Definition escape_char (c : ascii) : list ascii :=
  if unreserved c then [c]
  else if Ascii.eqb c " "%char then ["+"%char]
  else let n := Z.of_N (Ascii.N_of_ascii c) in
       ["%"%char; hex_upper (Z.shiftr n 4); hex_upper (Z.land n 15)].

(** [url.QueryEscape]. *)
Definition QueryEscape (s : string) : string :=
  string_of_list_ascii (concat (map escape_char (list_ascii_of_string s))).

(** [url.Values], a [map[string][]string]. *)
Abbreviation Values := (gmap string (list string)).

(** [v.Set(k, x)]. *)
Definition Set_ (k x : string) (v : Values) : Values := <[k := [x]]> v.

Fixpoint insert_sorted (p : string * list string) (l : list (string * list string))
    : list (string * list string) :=
  match l with
  | [] => [p]
  | q :: rest =>
      match String.compare p.1 q.1 with
      | Gt => q :: insert_sorted p rest
      | _ => p :: q :: rest
      end
  end.

(** [sort.Strings] on the keys of the map. *)
Definition sorted_entries (v : Values) : list (string * list string) :=
  fold_right insert_sorted [] (map_to_list v).

(** [v.Encode()]: keys in sorted order, each value as [key=value],
    joined by [&]. *)
Definition Encode (v : Values) : string :=
  String.concat "&"
    (concat (map (fun '(k, vs) => map (fun x => QueryEscape k +:+ "=" +:+ QueryEscape x) vs)
                 (sorted_entries v))).

End URL.

(* ------------------------------------------------------------------ *)
(** ** The package's helpers (WireCodec, AssociationStore, signing) *)

Module Wire.

(** Modelled from the spec: [encodeHTTP], the request half of WireCodec
    (spec 4.1 [encodeRequestFields]): every field of [values] is set in
    the [url.Values] under its name prefixed with [openid.]. *)
Definition encodeHTTP (v : URL.Values) (values : gmap string string) : URL.Values :=
  map_fold (fun k x acc => URL.Set_ ("openid." +:+ k) x acc) v values.

(** Modelled from the spec: [parseHTTP], the callback half of WireCodec
    (spec 4.1 [decodeResponseFields], on a [mapping<string,string>]):
    the [openid.] prefix is stripped from each key, keys without it are
    ignored. *)
Definition parseHTTP (query : gmap string string) : gmap string string :=
  map_fold (fun k x acc =>
              match GoStr.strip_prefix "openid." k with
              | Some k' => <[k' := x]> acc
              | None => acc
              end) ∅ query.

Definition blank (l : string) : bool := String.eqb l "".

Fixpoint drop_blank (ls : list string) : list string :=
  match ls with
  | l :: rest => if blank l then drop_blank rest else ls
  | [] => []
  end.

(** Modelled from the spec: [parseKeyValue] (spec 4.1
    [decodeKeyValueBody] and 6): the body is split into [\n]-terminated
    lines, leading and trailing blank lines are ignored, every other line
    is one [key:value] pair cut at its first [:], and a line without [:]
    makes the whole body malformed.  A later line for the same key
    overwrites an earlier one, as an insertion into a Go map does. *)
Definition parseKeyValue (body : string) : option (gmap string string) :=
  let lines := rev (drop_blank (rev (drop_blank (GoStr.Split body "010"%char)))) in
  fold_left (fun acc l =>
               match acc, GoStr.cut ":"%char l with
               | Some m, Some (k, x) => Some (<[k := x]> m)
               | _, _ => None
               end) lines (Some ∅).

End Wire.

(** The [Association] struct. *)
Record Association := mkAssociation {
  Endpoint : string;
  Handle : string;
  Secret : list Byte.byte;
  Type_ : string;  (* [Type] *)
  Expires : Z      (* [time.Time], in nanoseconds *)
}.

Module Store.

(** Modelled from the spec: the [associations] type, a map from endpoint
    to [Association] guarded by a lock (spec 3, 4.2 and 5).  [get] is the
    lookup of the reference behaviour the spec describes (4.2: an
    expired-but-not-yet-refreshed entry remains retrievable; 9: the
    reference behaviour retrieves a cached association without checking
    its expiry), the form in which [openid.go] calls it, [get(endpoint)]
    with no clock; [set] overwrites. *)
Definition get (store : gmap string Association) (endpoint : string) : option Association :=
  store !! endpoint.

Definition set (store : gmap string Association) (endpoint : string) (a : Association)
    : gmap string Association :=
  <[endpoint := a]> store.

End Store.

(** Modelled from the spec: [Association.sign] (spec 3 and 4.4 step 4):
    the line [name:value\n] of every name of [signed] in its order (the
    value from [values], [""] if absent), HMAC-SHA256 with the secret over
    the concatenation, base64 of the MAC.  The algorithm is fixed to
    HMAC-SHA256, so signing has no failing case. *)
Definition sign_buf (values : gmap string string) (signed : list string) : string :=
  String.concat "" (map (fun k => k +:+ ":" +:+ GoStr.get values k +:+ GoStr.nl) signed).

Definition sign (a : Association) (values : gmap string string) (signed : list string) : string :=
  Base64.EncodeToString (HMAC.hmac_sha256 (Secret a) (Bytes.of_string (sign_buf values signed))).

(* ------------------------------------------------------------------ *)
(** ** openid.go *)

Module OpenIDPkg.

Definition Namespace : string := "http://specs.openid.net/auth/2.0".
Definition ClaimedID : string := "http://specs.openid.net/auth/2.0/identifier".
Definition Identity : string := "http://specs.openid.net/auth/2.0/identifier_select".
Definition NSSreg : string := "http://openid.net/extensions/sreg/1.1".

(** Modelled from the spec: the constant [hmacSHA256] (spec 4.3 and 6,
    [assoc_type=hmac-sha256]). *)
Definition hmacSHA256 : string := "hmac-sha256".

(** The [OpenID] struct; its [assocs] store is the mutable part of
    [state] below. *)
Record OpenID := mkOpenID { assocType : string; realm : string }.

Definition New (realm : string) : OpenID := mkOpenID hmacSHA256 realm.

(** The mutable world: the association store and the URLs requested with
    [http.Get] so far. *)
Record state := mkState {
  assocs : gmap string Association;
  requests : list string
}.

(** Outcome of [http.Get]: a transport error, or a response with its
    status code and the outcome of [ioutil.ReadAll(resp.Body)]. *)
Inductive body_read := ReadOK (body : string) | ReadErr.
Inductive http_result := GetErr | GetResp (status : Z) (body : body_read).

(** The network, as the function answering each request URL. *)
Abbreviation network := (string -> http_result).

(** The errors built by [fmt.Errorf] in the package. *)
Inductive error :=
  | ErrAssociate                      (* "associate with OpenID Server failed" *)
  | ErrNoAssociation (endpoint : string)  (* "no Association found for %s" *)
  | ErrVerify (endpoint : string).        (* "verify singed failed %s" *)

Inductive result (A : Type) := Ok (x : A) | Err (e : error).
Arguments Ok {A} x.
Arguments Err {A} e.

Definition record_request (st : state) (u : string) : state :=
  mkState (assocs st) (requests st ++ [u]).

Definition expires_of (now expiresIn : Z) : Z :=
  now + wrap64 (expiresIn * 1000 * 1000 * 1000).

(** The request URL of the handshake in [associate]. *)
Definition request_url (o : OpenID) (opEndpoint : string) : string :=
  let values := <["mode" := "associate"]> (<["assoc_type" := assocType o]> ∅) in
  opEndpoint +:+ "?" +:+ URL.Encode (Wire.encodeHTTP ∅ values).

(** [associate]; [now] is the value of [time.Now()]. *)
Definition associate (net : network) (now : Z) (o : OpenID) (st : state)
    (opEndpoint : string) : option Association * state :=
  match Store.get (assocs st) opEndpoint with
  | Some assoc => (Some assoc, st)
  | None =>
      let urlStr := request_url o opEndpoint in
      let st := record_request st urlStr in
      match net urlStr with
      | GetErr => (None, st)
      | GetResp _ rd =>
          match rd with
          | ReadErr => (None, st)
          | ReadOK body =>
              match Wire.parseKeyValue body with
              | None => (None, st)
              | Some openidValues =>
                  match Base64.DecodeString (GoStr.get openidValues "mac_key") with
                  | None => (None, st)
                  | Some secret =>
                      match Strconv.Atoi (GoStr.get openidValues "expires_in") with
                      | None => (None, st)
                      | Some expiresIn =>
                          let assoc := {| Endpoint := opEndpoint;
                                          Handle := GoStr.get openidValues "assoc_handle";
                                          Secret := secret;
                                          Type_ := GoStr.get openidValues "assoc_type";
                                          Expires := expires_of now expiresIn |} in
                          (Some assoc, mkState (Store.set (assocs st) opEndpoint assoc)
                                                (requests st))
                      end
                  end
              end
          end
      end
  end.

Definition checkid_values (handle returnTo : string) : gmap string string :=
  <["mode" := "checkid_setup"]> (<["ns" := Namespace]> (<["assoc_handle" := handle]>
  (<["return_to" := returnTo]> (<["claimed_id" := ClaimedID]> (<["identity" := Identity]>
  (<["ns.sreg" := NSSreg]> (<["sreg.required" := "nickname,email,fullname"]> ∅))))))).

(** [CheckIDSetup]. *)
Definition CheckIDSetup (net : network) (now : Z) (o : OpenID) (st : state)
    (opEndpoint callbackPrefix : string) : result string * state :=
  match associate net now o st opEndpoint with
  | (None, st) => (Err ErrAssociate, st)
  | (Some assoc, st) =>
      let values := checkid_values (Handle assoc) (realm o +:+ "/" +:+ callbackPrefix) in
      let v := Wire.encodeHTTP ∅ values in
      (Ok (opEndpoint +:+ "?" +:+ URL.Encode v), st)
  end.

(** [IDRes] on the query of the request. *)
Definition IDRes (o : OpenID) (st : state) (query : gmap string string)
    : result (gmap string string) :=
  let user := Wire.parseHTTP query in
  let endpoint := GoStr.get user "op_endpoint" in
  match Store.get (assocs st) endpoint with
  | None => Err (ErrNoAssociation endpoint)
  | Some a =>
      let signed := sign a user (GoStr.Split (GoStr.get user "signed") ","%char) in
      if negb (String.eqb signed (GoStr.get user "sig")) then Err (ErrVerify endpoint)
      else Ok user
  end.

End OpenIDPkg.

(* ------------------------------------------------------------------ *)
(** ** login/id.go *)

Module Login.

Definition sesKeyOpenID : string := "github.com/shuaiming/openid/login.User".
Definition sesKeyRedirect : string := "github.com/shuaiming/openid/login.Redirect".

(** Dynamic values held by a session ([interface{}]). *)
Inductive dyn :=
  | DMapStringString (m : gmap string string)
  | DString (s : string)
  | DInt (n : Z).

Abbreviation session := (gmap string dyn).

(** A Go call either returns or panics. *)
Inductive outcome (A : Type) := Returns (x : A) | Panics.
Arguments Returns {A} x.
Arguments Panics {A}.

(** [GetUser]: [user.(map[string]string)] panics unless the dynamic type
    is [map[string]string]. *)
Definition GetUser (s : session) : outcome (option (gmap string string) * bool) :=
  match s !! sesKeyOpenID with
  | None => Returns (None, false)
  | Some user =>
      match user with
      | DMapStringString m => Returns (Some m, true)
      | _ => Panics
      end
  end.

(** The session update of the [verifyURL] case of [ServeHTTP]:
    [s.Store(sesKeyOpenID, user)] once [IDRes] succeeded. *)
Definition serve_verify (o : OpenIDPkg.OpenID) (st : OpenIDPkg.state)
    (query : gmap string string) (s : session) : session :=
  match OpenIDPkg.IDRes o st query with
  | OpenIDPkg.Ok user => <[sesKeyOpenID := DMapStringString user]> s
  | OpenIDPkg.Err _ => s
  end.

End Login.

(* ------------------------------------------------------------------ *)
(** ** login/id.go: the handler *)

Module LoginHandler.
Import OpenIDPkg Login.

Definition urlKeyRedirect : string := "redirect".

(** The [OpenID] struct of package [login]. *)
Record Handler := mkHandler {
  prefix : string;
  hrealm : string;       (* [realm] *)
  hendpoint : string;    (* [endpoint] *)
  hopenid : OpenID;      (* [openid] *)
  redirect : string
}.

(** [login.New]. *)
Definition New (prefix realm endpoint keyRedir : string) : Handler :=
  let keyRedir := if String.eqb keyRedir "" then urlKeyRedirect else keyRedir in
  mkHandler prefix realm endpoint (OpenIDPkg.New realm) keyRedir.

(** The parts of [*http.Request] the handler reads; [Query] holds the
    value [r.URL.Query().Get] returns for each key present. *)
Record request := mkRequest { Path : string; Method : string; Query : gmap string string }.

(** What the handler does with the [ResponseWriter]: hand over to
    [next], [http.Redirect(rw, r, url, code)], a status with a body, or
    nothing (after [log.Println(err); return]). *)
Inductive response :=
  | CallNext
  | Redirect (url : string) (code : Z)
  | Written (code : Z) (body : string)
  | NoResponse.

Definition StatusFound : Z := 302.
Definition StatusAccepted : Z := 202.

(** [strings.HasPrefix]. *)
Definition HasPrefix (s p : string) : bool :=
  match GoStr.strip_prefix p s with Some _ => true | None => false end.

(** The request methods the handler serves: the negation of its test
    [r.Method != "GET" && r.Method != "HEAD"]. *)
Definition get_method_ok (m : string) : bool :=
  String.eqb m "GET" || String.eqb m "HEAD".

(** [ServeHTTP]; [ses] is the result of [sessions.GetSession(r)] (the
    session, or [None] when [ok] is false), returned updated by
    [s.Store] and [s.Delete]; the type assertion [redirect.(string)]
    panics on a non-string. *)
Definition ServeHTTP (net : network) (now : Z) (o : Handler) (st : state) (r : request)
    (ses : option session) : outcome (response * option session * state) :=
  if negb (HasPrefix (Path r) (prefix o)) then Returns (CallNext, ses, st)
  else if negb (String.eqb (Method r) "GET") && negb (String.eqb (Method r) "HEAD")
  then Returns (CallNext, ses, st)
  else
    match ses with
    | None => Returns (CallNext, ses, st)
    | Some s =>
        let redirectURL := GoStr.get (Query r) urlKeyRedirect in
        let loginURL := prefix o +:+ "/login" in
        let logoutURL := prefix o +:+ "/logout" in
        let verifyURL := prefix o +:+ "/verify" in
        if String.eqb (Path r) loginURL then
          let s := if negb (String.eqb redirectURL "")
                   then <[sesKeyRedirect := DString redirectURL]> s else s in
          match CheckIDSetup net now (hopenid o) st (hendpoint o) verifyURL with
          | (Err _, st) => Returns (NoResponse, Some s, st)
          | (Ok authURL, st) => Returns (Redirect authURL StatusFound, Some s, st)
          end
        else if String.eqb (Path r) logoutURL then
          let s := delete sesKeyOpenID s in
          if negb (String.eqb redirectURL "") then
            Returns (Redirect redirectURL StatusFound, Some (delete sesKeyRedirect s), st)
          else Returns (Written StatusAccepted ("logout" +:+ GoStr.nl), Some s, st)
        else if String.eqb (Path r) verifyURL then
          match IDRes (hopenid o) st (Query r) with
          | Err _ => Returns (NoResponse, Some s, st)
          | Ok user =>
              let s := <[sesKeyOpenID := DMapStringString user]> s in
              match s !! sesKeyRedirect with
              | Some (DString redirect) =>
                  Returns (Redirect redirect StatusFound, Some (delete sesKeyRedirect s), st)
              | Some _ => Panics
              | None => Returns (Redirect (hrealm o) StatusFound, Some s, st)
              end
          end
        else Returns (CallNext, Some s, st)
    end.

(** The session shape the handler writes: a [map[string]string] under
    the user key, a string under the redirect key. *)
Definition session_wf (s : session) : Prop :=
  (forall v, s !! sesKeyOpenID = Some v -> exists m, v = DMapStringString m) /\
  (forall v, s !! sesKeyRedirect = Some v -> exists u, v = DString u).

End LoginHandler.

(** Every stored Association is stored under its own endpoint. *)
Definition store_wf (st : OpenIDPkg.state) : Prop :=
  forall k a, OpenIDPkg.assocs st !! k = Some a -> Endpoint a = k.

(* ------------------------------------------------------------------ *)
(** ** Sample inputs *)

Module Samples.
Import OpenIDPkg.

Definition E : string := "https://op.example/openid".
Definition rp : OpenID := New "https://rp.example".

Definition key16 : list Byte.byte :=
  [Byte.x00; Byte.x01; Byte.x02; Byte.x03; Byte.x04; Byte.x05; Byte.x06; Byte.x07;
   Byte.x08; Byte.x09; Byte.x0a; Byte.x0b; Byte.x0c; Byte.x0d; Byte.x0e; Byte.x0f].

Definition assoc0 : Association := mkAssociation E "AH1" key16 "hmac-sha256" 3600000001000.
Definition st0 : state := mkState {[ E := assoc0 ]} [].
Definition empty : state := mkState ∅ [].

(** The handshake body of the spec's round-trip example. *)
Definition body16 : string :=
  "assoc_handle:AH1" +:+ GoStr.nl +:+ "mac_key:" +:+ Base64.EncodeToString key16 +:+ GoStr.nl
  +:+ "assoc_type:hmac-sha256" +:+ GoStr.nl +:+ "expires_in:3600" +:+ GoStr.nl.
Definition net_ok : network := fun _ => GetResp 200 (ReadOK body16).

Definition fields0 : gmap string string :=
  {[ "openid.op_endpoint" := E; "openid.signed" := "op_endpoint,identity";
     "openid.identity" := "alice"; "openid.mode" := "id_res" ]}.
Definition sig0 : string := sign assoc0 (Wire.parseHTTP fields0) ["op_endpoint"; "identity"].
Definition query0 : gmap string string := <["openid.sig" := sig0]> fields0.

(** A callback without [openid.signed], signed as the code reads it. *)
Definition fields_nosigned : gmap string string :=
  {[ "openid.op_endpoint" := E; "openid.identity" := "mallory" ]}.
Definition query_nosigned : gmap string string :=
  <["openid.sig" := sign assoc0 (Wire.parseHTTP fields_nosigned) [""]]> fields_nosigned.

(** An Association that expired at time 0. *)
Definition assoc_old : Association := mkAssociation E "AH0" key16 "hmac-sha256" 0.
Definition st_old : state := mkState {[ E := assoc_old ]} [].
Definition query_old : gmap string string :=
  <["openid.sig" := sign assoc_old (Wire.parseHTTP fields0) ["op_endpoint"; "identity"]]> fields0.

(** Handshake bodies: one without [mac_key], one with a very large
    [expires_in]. *)
Definition body_nomac : string :=
  "assoc_handle:AH1" +:+ GoStr.nl +:+ "assoc_type:hmac-sha256" +:+ GoStr.nl
  +:+ "expires_in:3600" +:+ GoStr.nl.
Definition net_nomac : network := fun _ => GetResp 200 (ReadOK body_nomac).
Definition net_500 : network := fun _ => GetResp 500 (ReadOK body16).
Definition body_big : string :=
  "assoc_handle:AH1" +:+ GoStr.nl +:+ "mac_key:" +:+ Base64.EncodeToString key16 +:+ GoStr.nl
  +:+ "assoc_type:hmac-sha256" +:+ GoStr.nl +:+ "expires_in:10000000000" +:+ GoStr.nl.
Definition net_big : network := fun _ => GetResp 200 (ReadOK body_big).

End Samples.

(* ------------------------------------------------------------------ *)
(** ** Tests of the library models *)

Example sha_abc :
  Hex.of_bytes (map Bytes.of_Z (SHA256.digest (map Bytes.to_Z (Bytes.of_string "abc"))))
  = "ba7816bf8f01cfea414140de5dae2223b00361a396177a9cb410ff61f20015ad".
Proof. vm_compute. reflexivity. Qed.

Example hmac_fox :
  Hex.of_bytes (HMAC.hmac_sha256 (Bytes.of_string "key")
     (Bytes.of_string "The quick brown fox jumps over the lazy dog"))
  = "f7bc83f430538424b13298e6aa6fb143ef4d59a14946175997479dbc2d1a3cd8".
Proof. vm_compute. reflexivity. Qed.

Example b64_roundtrip :
  Base64.DecodeString (Base64.EncodeToString (Bytes.of_string "hello!?"))
  = Some (Bytes.of_string "hello!?")
  /\ Base64.EncodeToString (Bytes.of_string "hello") = "aGVsbG8=".
Proof. vm_compute. split; reflexivity. Qed.

Example atoi_cases :
  Strconv.Atoi "3600" = Some 3600 /\ Strconv.Atoi "+7" = Some 7 /\
  Strconv.Atoi "-2" = Some (-2) /\ Strconv.Atoi "" = None /\
  Strconv.Atoi "12a" = None /\ Strconv.Atoi "9223372036854775808" = None.
Proof. vm_compute. repeat split. Qed.

Example split_cases :
  GoStr.Split "" "," = [""] /\ GoStr.Split "a,b," "," = ["a"; "b"; ""].
Proof. vm_compute. split; reflexivity. Qed.

Example encode_sorted :
  URL.Encode (URL.Set_ "b" "x y" (URL.Set_ "a" "1/2" ∅)) = "a=1%2F2&b=x+y".
Proof. vm_compute. reflexivity. Qed.

Example sign_buf_order :
  sign_buf (<["b" := "2"]> (<["a" := "1"]> ∅)) ["b"; "a"; "c"] = "b:2
a:1
c:
".
Proof. vm_compute. reflexivity. Qed.

Example parse_kv_ok :
  Wire.parseKeyValue "
a:b:c
d:
" = Some (<["d" := ""]> (<["a" := "b:c"]> ∅)) /\ Wire.parseKeyValue "a:b
junk
" = None.
Proof. vm_compute. split; reflexivity. Qed.

(* ------------------------------------------------------------------ *)
(** ** Properties *)

Module Facts.
Import OpenIDPkg Samples.

Lemma round_length (s : list Z) (kw : Z * Z) :
  length s = 8%nat -> length (SHA256.round s kw) = 8%nat.
Proof.
  intros Hs.
  do 8 (destruct s as [|? s]; [discriminate|]).
  destruct s; [reflexivity | discriminate].
Qed.

Lemma fold_round_length (l : list (Z * Z)) (s : list Z) :
  length s = 8%nat -> length (fold_left SHA256.round l s) = 8%nat.
Proof.
  revert s; induction l as [|kw l IH]; intros s Hs; simpl; [done|].
  apply IH, round_length, Hs.
Qed.

Lemma blocks_length (fuel : nat) (data h : list Z) :
  length h = 8%nat -> length (SHA256.blocks fuel data h) = 8%nat.
Proof.
  revert data h; induction fuel as [|f IH]; intros data h Hh; simpl; [done|].
  apply IH. unfold SHA256.compress.
  rewrite length_map, length_combine, fold_round_length by done.
  rewrite Hh. reflexivity.
Qed.

Lemma digest_length (msg : list Z) : length (SHA256.digest msg) = 32%nat.
Proof.
  unfold SHA256.digest.
  pose proof (blocks_length (length (SHA256.pad msg) / 64) (SHA256.pad msg) SHA256.H0
                eq_refl) as Hl.
  destruct (SHA256.blocks _ _ _) as [|w0 [|w1 [|w2 [|w3 [|w4 [|w5 [|w6 [|w7 [|w8 r]]]]]]]]];
    try discriminate.
  reflexivity.
Qed.

Lemma hmac_length (key msg : list Byte.byte) : length (HMAC.hmac_sha256 key msg) = 32%nat.
Proof. unfold HMAC.hmac_sha256. rewrite length_map. apply digest_length. Qed.

Lemma encode_nonempty (bs : list Byte.byte) :
  bs <> [] -> Base64.EncodeToString bs <> "".
Proof.
  intros Hne. unfold Base64.EncodeToString.
  destruct bs as [|b1 [|b2 [|b3 r]]]; [done| | |]; simpl; discriminate.
Qed.

(** A signature is never the empty string. *)
Lemma sign_nonempty (a : Association) (values : gmap string string) (signed : list string) :
  sign a values signed <> "".
Proof.
  unfold sign. apply encode_nonempty. intros Hnil.
  pose proof (hmac_length (Secret a) (Bytes.of_string (sign_buf values signed))) as Hl.
  rewrite Hnil in Hl. discriminate.
Qed.

(** ** C1 *)

(** C1: given the decoded fields [op_endpoint], [signed] and [sig] and a
    stored Association for [op_endpoint], [IDRes] returns the decoded
    field map exactly when the base64 HMAC-SHA256, under the
    Association's secret, of the lines [name:value\n] for the names of
    [signed] in their order (value [""] when absent) equals [sig], and
    fails with the signature-mismatch error otherwise. *)
Theorem IDRes_verifies_recomputed_signature (o : OpenID) (st : state)
    (q : gmap string string) (ep sgn sig : string) (a : Association) :
  Wire.parseHTTP q !! "op_endpoint" = Some ep ->
  Wire.parseHTTP q !! "signed" = Some sgn ->
  Wire.parseHTTP q !! "sig" = Some sig ->
  Store.get (assocs st) ep = Some a ->
  let user := Wire.parseHTTP q in
  let buf := String.concat ""
               (map (fun k => k +:+ ":" +:+ GoStr.get user k +:+ GoStr.nl)
                    (GoStr.Split sgn ","%char)) in
  let recomputed := Base64.EncodeToString (HMAC.hmac_sha256 (Secret a) (Bytes.of_string buf)) in
  IDRes o st q = if bool_decide (recomputed = sig) then Ok user else Err (ErrVerify ep).
Proof.
  intros Hep Hsgn Hsig Ha user buf recomputed.
  unfold IDRes. fold user.
  assert (GoStr.get user "op_endpoint" = ep) as -> by (unfold GoStr.get, user; rewrite Hep; done).
  assert (GoStr.get user "signed" = sgn) as -> by (unfold GoStr.get, user; rewrite Hsgn; done).
  assert (GoStr.get user "sig" = sig) as -> by (unfold GoStr.get, user; rewrite Hsig; done).
  rewrite Ha.
  change (sign a user (GoStr.Split sgn ","%char)) with recomputed.
  case_bool_decide as Heq.
  - subst. rewrite String.eqb_refl. reflexivity.
  - apply String.eqb_neq in Heq. rewrite Heq. reflexivity.
Qed.

Lemma IDRes_verifies_recomputed_signature_witness :
  Wire.parseHTTP query0 !! "op_endpoint" = Some E /\
  Wire.parseHTTP query0 !! "signed" = Some "op_endpoint,identity" /\
  Wire.parseHTTP query0 !! "sig" = Some sig0 /\
  Store.get (assocs st0) E = Some assoc0 /\
  IDRes rp st0 query0 = Ok (Wire.parseHTTP query0).
Proof.
  split; [vm_compute; reflexivity|]. split; [vm_compute; reflexivity|].
  split; [vm_compute; reflexivity|]. split; [vm_compute; reflexivity|].
  rewrite (IDRes_verifies_recomputed_signature rp st0 query0 E "op_endpoint,identity" sig0 assoc0);
    vm_compute; reflexivity.
Defined.

End Facts.

Module Facts2.
Import OpenIDPkg Samples Facts.

(** ** C9 *)

(** C9: whatever the query (empty, garbage or absent [op_endpoint]), when
    no Association is stored for the decoded endpoint [IDRes] returns the
    unknown-association error; and on every query [IDRes] returns either
    the decoded fields or an error value. *)
Theorem IDRes_unknown_endpoint_total (o : OpenID) (st : state) (q : gmap string string) :
  (Store.get (assocs st) (GoStr.get (Wire.parseHTTP q) "op_endpoint") = None ->
   IDRes o st q = Err (ErrNoAssociation (GoStr.get (Wire.parseHTTP q) "op_endpoint"))) /\
  (IDRes o st q = Ok (Wire.parseHTTP q) \/ exists e, IDRes o st q = Err e).
Proof.
  split.
  - intros Hnone. unfold IDRes. rewrite Hnone. reflexivity.
  - unfold IDRes.
    destruct (Store.get _ _); [|right; eexists; reflexivity].
    destruct (negb _); [right; eexists; reflexivity | left; reflexivity].
Qed.

Lemma IDRes_unknown_endpoint_total_witness :
  Store.get (assocs st0)
    (GoStr.get (Wire.parseHTTP {[ "openid.op_endpoint" := "%%garbage" ]}) "op_endpoint") = None /\
  IDRes rp st0 {[ "openid.op_endpoint" := "%%garbage" ]} = Err (ErrNoAssociation "%%garbage").
Proof.
  split; [vm_compute; reflexivity|].
  destruct (IDRes_unknown_endpoint_total rp st0 {[ "openid.op_endpoint" := "%%garbage" ]})
    as [H _].
  rewrite H by (vm_compute; reflexivity). vm_compute. reflexivity.
Defined.

(** ** C3 *)

(** C3, as stated, fails: a callback without [openid.signed] is accepted
    when its [sig] is the signature of the line [:\n]. *)
Lemma IDRes_missing_signed_accepted :
  Wire.parseHTTP query_nosigned !! "signed" = None /\
  IDRes rp st0 query_nosigned = Ok (Wire.parseHTTP query_nosigned).
Proof. split; vm_compute; reflexivity. Qed.

(** C3, amended: [IDRes] has no missing-field check, an absent field
    reads as [""]: without [sig] the call always fails (a signature is
    never empty); without [op_endpoint] the Association stored under
    [""] is looked up, so with none it fails with the unknown-association
    error; without [signed] the name list is [[""]], so the signed buffer
    is [:], the value of the field named exactly [openid.] ([""] when
    absent) and a newline, and the call succeeds exactly when [sig] is
    the base64 HMAC-SHA256 of that buffer under the stored secret. *)
Theorem IDRes_missing_fields (o : OpenID) (st : state) (q : gmap string string) :
  (Wire.parseHTTP q !! "sig" = None -> exists e, IDRes o st q = Err e) /\
  (Wire.parseHTTP q !! "op_endpoint" = None -> Store.get (assocs st) "" = None ->
   IDRes o st q = Err (ErrNoAssociation "")) /\
  (forall a, Wire.parseHTTP q !! "signed" = None ->
   Store.get (assocs st) (GoStr.get (Wire.parseHTTP q) "op_endpoint") = Some a ->
   (IDRes o st q = Ok (Wire.parseHTTP q) <->
    GoStr.get (Wire.parseHTTP q) "sig" =
      Base64.EncodeToString (HMAC.hmac_sha256 (Secret a)
        (Bytes.of_string (":" +:+ GoStr.get (Wire.parseHTTP q) "" +:+ GoStr.nl))))).
Proof.
  unfold IDRes. split; [|split].
  - intros Hsig. destruct (Store.get _ _) as [a|]; [|eexists; reflexivity].
    assert (GoStr.get (Wire.parseHTTP q) "sig" = "") as ->
      by (unfold GoStr.get; rewrite Hsig; reflexivity).
    destruct (String.eqb_spec (sign a (Wire.parseHTTP q)
                 (GoStr.Split (GoStr.get (Wire.parseHTTP q) "signed") ","%char)) "")
      as [Heq|Hne].
    + exfalso. exact (sign_nonempty _ _ _ Heq).
    + eexists. reflexivity.
  - intros Hep Hnone.
    assert (GoStr.get (Wire.parseHTTP q) "op_endpoint" = "") as ->
      by (unfold GoStr.get; rewrite Hep; reflexivity).
    rewrite Hnone. reflexivity.
  - intros a Hsgn Ha. rewrite Ha.
    assert (GoStr.get (Wire.parseHTTP q) "signed" = "") as ->
      by (unfold GoStr.get; rewrite Hsgn; reflexivity).
    change (GoStr.Split "" ","%char) with [""].
    change (Base64.EncodeToString (HMAC.hmac_sha256 (Secret a)
        (Bytes.of_string (":" +:+ GoStr.get (Wire.parseHTTP q) "" +:+ GoStr.nl))))
      with (sign a (Wire.parseHTTP q) [""]).
    destruct (String.eqb_spec (sign a (Wire.parseHTTP q) [""]) (GoStr.get (Wire.parseHTTP q) "sig"))
      as [Heq|Hne]; simpl.
    + split; [done|reflexivity].
    + split; [discriminate|]. intros H. symmetry in H. contradiction.
Qed.

Lemma IDRes_missing_fields_witness :
  Wire.parseHTTP query_nosigned !! "signed" = None /\
  Store.get (assocs st0) (GoStr.get (Wire.parseHTTP query_nosigned) "op_endpoint") = Some assoc0 /\
  IDRes rp st0 query_nosigned = Ok (Wire.parseHTTP query_nosigned).
Proof.
  split; [vm_compute; reflexivity|]. split; [vm_compute; reflexivity|].
  destruct (IDRes_missing_fields rp st0 query_nosigned) as [_ [_ H]].
  apply (H assoc0); vm_compute; reflexivity.
Defined.

(** ** C2 *)

(** C2, as stated, fails: an Association that expired at time 0 is still
    returned at time 10 by the store lookup, by [associate] (with no
    request sent) and is used by [IDRes] to accept a callback. *)
Lemma expired_association_still_used :
  Expires assoc_old < 10 /\
  Store.get (assocs st_old) E = Some assoc_old /\
  associate net_ok 10 rp st_old E = (Some assoc_old, st_old) /\
  IDRes rp st_old query_old = Ok (Wire.parseHTTP query_old).
Proof.
  split; [vm_compute; reflexivity|]. split; [vm_compute; reflexivity|].
  split; vm_compute; reflexivity.
Qed.

(** C2, amended: the lookup does not consult [Expires]: for a stored
    Association, whatever its expiry and the current time, [get] returns
    it, [associate] returns it with the state unchanged (no handshake),
    and [IDRes] checks the callback's signature against it instead of
    failing with the unknown-association error. *)
Theorem stored_association_returned_regardless_of_expiry
    (net : network) (now : Z) (o : OpenID) (st : state) (ep : string) (a : Association) :
  assocs st !! ep = Some a ->
  Store.get (assocs st) ep = Some a /\
  associate net now o st ep = (Some a, st) /\
  (forall q, GoStr.get (Wire.parseHTTP q) "op_endpoint" = ep ->
   IDRes o st q = if String.eqb (sign a (Wire.parseHTTP q)
                                   (GoStr.Split (GoStr.get (Wire.parseHTTP q) "signed") ","%char))
                                (GoStr.get (Wire.parseHTTP q) "sig")
                  then Ok (Wire.parseHTTP q) else Err (ErrVerify ep)).
Proof.
  intros Ha. unfold Store.get. repeat split.
  - exact Ha.
  - unfold associate, Store.get. rewrite Ha. reflexivity.
  - intros q Hq. unfold IDRes, Store.get. rewrite Hq, Ha.
    destruct (String.eqb _ _); reflexivity.
Qed.

Lemma stored_association_returned_regardless_of_expiry_witness :
  assocs st_old !! E = Some assoc_old /\ Expires assoc_old < 10 /\
  associate net_ok 10 rp st_old E = (Some assoc_old, st_old).
Proof.
  split; [vm_compute; reflexivity|]. split; [vm_compute; reflexivity|].
  apply (stored_association_returned_regardless_of_expiry net_ok 10 rp st_old E assoc_old).
  vm_compute; reflexivity.
Defined.

End Facts2.

Module Facts3.
Import OpenIDPkg Samples.

(** On a cache miss [associate] sends exactly one request, and the store
    changes only by the insertion of the Association it returns. *)
Lemma associate_miss_state (net : network) (now : Z) (o : OpenID) (st : state) (ep : string) :
  Store.get (assocs st) ep = None ->
  requests (associate net now o st ep).2 = requests st ++ [request_url o ep] /\
  assocs (associate net now o st ep).2 =
    match (associate net now o st ep).1 with
    | None => assocs st
    | Some a => <[ep := a]> (assocs st)
    end.
Proof.
  intros Hmiss. unfold associate. rewrite Hmiss.
  destruct (net _) as [|status [body|]]; simpl; [done| |done].
  destruct (Wire.parseKeyValue body) as [vals|]; simpl; [|done].
  destruct (Base64.DecodeString _) as [secret|]; simpl; [|done].
  destruct (Strconv.Atoi _) as [ei|]; simpl; done.
Qed.

(** ** C5 *)

(** C5, as stated, fails: a response with status 500 and a well-formed
    body yields a stored Association. *)
Lemma associate_ignores_http_status :
  associate net_500 0 rp empty E =
    (Some (mkAssociation E "AH1" key16 "hmac-sha256" 3600000000000),
     mkState {[ E := mkAssociation E "AH1" key16 "hmac-sha256" 3600000000000 ]}
             [request_url rp E]).
Proof. vm_compute. reflexivity. Qed.

(** C5, amended: on a cache miss [associate] fails exactly when the
    transport fails, the body cannot be read, the body is not key-value
    text, [mac_key] is not valid base64 or [expires_in] is not a decimal
    [int] (an absent field being read as [""]; the HTTP status is not
    consulted), and when it fails the store is left unchanged. *)
Theorem associate_failure_cases (net : network) (now : Z) (o : OpenID) (st : state)
    (ep : string) :
  Store.get (assocs st) ep = None ->
  ((associate net now o st ep).1 = None <->
   match net (request_url o ep) with
   | GetErr => True
   | GetResp _ ReadErr => True
   | GetResp _ (ReadOK body) =>
       match Wire.parseKeyValue body with
       | None => True
       | Some vals =>
           Base64.DecodeString (GoStr.get vals "mac_key") = None \/
           Strconv.Atoi (GoStr.get vals "expires_in") = None
       end
   end) /\
  ((associate net now o st ep).1 = None -> assocs (associate net now o st ep).2 = assocs st).
Proof.
  intros Hmiss. split.
  - unfold associate. rewrite Hmiss.
    destruct (net _) as [|status [body|]]; simpl; [done| |done].
    destruct (Wire.parseKeyValue body) as [vals|]; simpl; [|done].
    destruct (Base64.DecodeString _) as [secret|]; simpl; [|split; [by left | done]].
    destruct (Strconv.Atoi _) as [ei|]; simpl; [|split; [by right | done]].
    split; [discriminate|]. intros [H|H]; discriminate.
  - intros Hnone. destruct (associate_miss_state net now o st ep Hmiss) as [_ Hst].
    rewrite Hst, Hnone. reflexivity.
Qed.

Lemma associate_failure_cases_witness :
  Store.get (assocs empty) E = None /\
  ((associate (fun _ => GetErr) 0 rp empty E).1 = None /\
   assocs (associate (fun _ => GetErr) 0 rp empty E).2 = assocs empty).
Proof.
  split; [vm_compute; reflexivity|].
  destruct (associate_failure_cases (fun _ => GetErr) 0 rp empty E ltac:(vm_compute; reflexivity))
    as [Hiff Hst].
  assert (Hn : (associate (fun _ => GetErr) 0 rp empty E).1 = None) by (apply Hiff; exact I).
  split; [exact Hn | exact (Hst Hn)].
Defined.

(** ** C4 *)

(** C4, as stated, fails: a body without [mac_key] yields a stored and
    returned Association whose secret is empty. *)
Lemma associate_missing_mac_key_stored :
  associate net_nomac 0 rp empty E =
    (Some (mkAssociation E "AH1" [] "hmac-sha256" 3600000000000),
     mkState {[ E := mkAssociation E "AH1" [] "hmac-sha256" 3600000000000 ]}
             [request_url rp E]).
Proof. vm_compute. reflexivity. Qed.

(** C4, amended: a missing [mac_key] is read as [""], which decodes to
    the empty secret.  On a cache miss: when the response is read and
    parses as key-value text lacking [mac_key], [associate] stores and
    returns an Association with an empty secret if [expires_in] parses,
    and otherwise fails leaving the store unchanged; on a transport
    error, a read error or a body that is not key-value text it fails
    leaving the store unchanged. *)
Theorem associate_missing_mac_key (net : network) (now : Z) (o : OpenID) (st : state)
    (ep : string) :
  Store.get (assocs st) ep = None ->
  match net (request_url o ep) with
  | GetResp _ (ReadOK body) =>
      match Wire.parseKeyValue body with
      | Some vals =>
          vals !! "mac_key" = None ->
          match Strconv.Atoi (GoStr.get vals "expires_in") with
          | None => associate net now o st ep = (None, record_request st (request_url o ep))
          | Some ei =>
              exists a, associate net now o st ep =
                          (Some a, mkState (<[ep := a]> (assocs st))
                                           (requests st ++ [request_url o ep]))
                        /\ Secret a = [] /\ Handle a = GoStr.get vals "assoc_handle"
          end
      | None => associate net now o st ep = (None, record_request st (request_url o ep))
      end
  | _ => associate net now o st ep = (None, record_request st (request_url o ep))
  end.
Proof.
  intros Hmiss.
  destruct (net (request_url o ep)) as [|status [body|]] eqn:Hnet;
    unfold associate; rewrite Hmiss; cbv zeta; rewrite Hnet; try reflexivity.
  destruct (Wire.parseKeyValue body) as [vals|]; [|reflexivity].
  intros Hmac.
  assert (GoStr.get vals "mac_key" = "") as -> by (unfold GoStr.get; rewrite Hmac; done).
  change (Base64.DecodeString "") with (Some (@nil Byte.byte)). simpl.
  destruct (Strconv.Atoi _) as [ei|]; [|reflexivity].
  eexists. split; [reflexivity|]. split; reflexivity.
Qed.

Lemma associate_missing_mac_key_witness :
  Store.get (assocs empty) E = None /\
  exists a, (associate net_nomac 0 rp empty E).1 = Some a /\ Secret a = [].
Proof.
  assert (Hmiss : Store.get (assocs empty) E = None) by (vm_compute; reflexivity).
  split; [exact Hmiss|].
  pose proof (associate_missing_mac_key net_nomac 0 rp empty E Hmiss) as H.
  change (net_nomac (request_url rp E)) with (GetResp 200 (ReadOK body_nomac)) in H.
  change (Wire.parseKeyValue body_nomac) with
    (Some ({[ "assoc_handle" := "AH1"; "assoc_type" := "hmac-sha256";
              "expires_in" := "3600" ]} : gmap string string)) in H.
  cbv beta iota in H.
  specialize (H ltac:(vm_compute; reflexivity)).
  change (Strconv.Atoi _) with (Some 3600) in H. cbv beta iota in H.
  destruct H as [a [Heq [Hsec _]]]. exists a. rewrite Heq. split; [reflexivity | exact Hsec].
Defined.

End Facts3.

Module Facts4.
Import OpenIDPkg Samples Facts3.

Lemma wrap64_small (x : Z) : - 2 ^ 63 <= x < 2 ^ 63 -> wrap64 x = x.
Proof.
  intros Hx. unfold wrap64.
  destruct (Z_lt_le_dec x 0) as [Hneg|Hpos].
  - replace (x mod 2 ^ 64) with (x + 2 ^ 64)
      by (apply (Z.mod_unique x (2 ^ 64) (-1)); lia).
    destruct (Z.leb_spec (2 ^ 63) (x + 2 ^ 64)); lia.
  - rewrite Z.mod_small by lia.
    destruct (Z.leb_spec (2 ^ 63) x); lia.
Qed.

(** A successful handshake stores and returns the Association built from
    the response fields; its expiry is [now + expires_in] seconds as long
    as [expires_in * 10^9] fits in an [int]. *)
Lemma associate_success (net : network) (now : Z) (o : OpenID) (st : state) (ep : string)
    (status : Z) (body : string) (vals : gmap string string) (secret : list Byte.byte) (ei : Z) :
  Store.get (assocs st) ep = None ->
  net (request_url o ep) = GetResp status (ReadOK body) ->
  Wire.parseKeyValue body = Some vals ->
  Base64.DecodeString (GoStr.get vals "mac_key") = Some secret ->
  Strconv.Atoi (GoStr.get vals "expires_in") = Some ei ->
  - 2 ^ 63 <= ei * 1000000000 < 2 ^ 63 ->
  let a := mkAssociation ep (GoStr.get vals "assoc_handle") secret
                         (GoStr.get vals "assoc_type") (now + ei * 1000000000) in
  associate net now o st ep =
    (Some a, mkState (<[ep := a]> (assocs st)) (requests st ++ [request_url o ep])).
Proof.
  intros Hmiss Hnet Hparse Hdec Hatoi Hrange a.
  unfold associate. rewrite Hmiss, Hnet, Hparse, Hdec, Hatoi. simpl.
  unfold a, expires_of. rewrite <- !Z.mul_assoc. simpl (1000 * (1000 * 1000)).
  rewrite wrap64_small by exact Hrange. reflexivity.
Qed.

(** The spec's round-trip example: handle [AH1], the 16 bytes of
    [mac_key], expiry [now + 3600 s], stored and returned. *)
Lemma associate_round_trip_example (now : Z) :
  associate net_ok now rp empty E =
    (Some (mkAssociation E "AH1" key16 "hmac-sha256" (now + 3600 * 1000000000)),
     mkState {[ E := mkAssociation E "AH1" key16 "hmac-sha256" (now + 3600 * 1000000000) ]}
             [request_url rp E]) /\ length key16 = 16%nat.
Proof.
  split; [|reflexivity].
  rewrite (associate_success net_ok now rp empty E 200 body16
             {[ "assoc_handle" := "AH1"; "mac_key" := Base64.EncodeToString key16;
                "assoc_type" := "hmac-sha256"; "expires_in" := "3600" ]} key16 3600);
    [vm_compute; reflexivity | reflexivity | vm_compute; reflexivity | vm_compute; reflexivity
    | vm_compute; reflexivity | vm_compute; reflexivity | lia].
Qed.

(** ** C6 *)

(** C6 at the failing input [expires_in:10000000000]: the duration
    [expiresIn * 1000 * 1000 * 1000] wraps around in 64-bit [int], and
    the stored and returned Association expires 8446744073.7 s before
    [now] instead of [now + 10^10 s]. *)
Theorem associate_expiry_overflow :
  associate net_big 0 rp empty E =
    (Some (mkAssociation E "AH1" key16 "hmac-sha256" (-8446744073709551616)),
     mkState {[ E := mkAssociation E "AH1" key16 "hmac-sha256" (-8446744073709551616) ]}
             [request_url rp E]) /\
  -8446744073709551616 <> 0 + 10000000000 * 1000000000.
Proof. split; [vm_compute; reflexivity | lia]. Qed.

(** ** C8 *)

(** C8: after a first [associate ep] that finds no stored Association and
    succeeds, a second call within the expiry window returns the same
    Association from the store and changes nothing: the two calls send
    exactly one request. *)
Theorem associate_second_call_cached (net : network) (now now' : Z) (o : OpenID)
    (st st1 : state) (ep : string) (a : Association) :
  Store.get (assocs st) ep = None ->
  associate net now o st ep = (Some a, st1) ->
  now' < Expires a ->
  requests st1 = requests st ++ [request_url o ep] /\
  assocs st1 !! ep = Some a /\
  associate net now' o st1 ep = (Some a, st1).
Proof.
  intros Hmiss Hfirst _.
  destruct (associate_miss_state net now o st ep Hmiss) as [Hreq Hst].
  rewrite Hfirst in Hreq, Hst. simpl in Hreq, Hst.
  assert (Hlook : assocs st1 !! ep = Some a) by (rewrite Hst; apply lookup_insert_eq).
  split; [exact Hreq|]. split; [exact Hlook|].
  unfold associate, Store.get. rewrite Hlook. reflexivity.
Qed.

Lemma associate_second_call_cached_witness :
  let a := mkAssociation E "AH1" key16 "hmac-sha256" 3600000000000 in
  let st1 := mkState {[ E := a ]} [request_url rp E] in
  Store.get (assocs empty) E = None /\
  associate net_ok 0 rp empty E = (Some a, st1) /\
  1 < Expires a /\
  associate net_ok 1 rp st1 E = (Some a, st1).
Proof.
  intros a st1.
  split; [vm_compute; reflexivity|]. split; [vm_compute; reflexivity|].
  split; [vm_compute; reflexivity|].
  apply (associate_second_call_cached net_ok 0 1 rp empty st1 E a);
    vm_compute; reflexivity.
Defined.

End Facts4.

Module Facts5.
Import OpenIDPkg Samples.

(** Encoding commutes with a map on the field values: the shape of the
    query depends on the field names only. *)
Lemma encodeHTTP_fmap (g : string -> string) (m : gmap string string) :
  Wire.encodeHTTP ∅ (g <$> m) = map g <$> Wire.encodeHTTP ∅ m.
Proof.
  unfold Wire.encodeHTTP. rewrite !map_fold_foldr, map_to_list_fmap.
  induction (map_to_list m) as [|[k x] l IH]; simpl.
  - by rewrite fmap_empty.
  - unfold URL.Set_. rewrite fmap_insert.
    f_equal. exact IH.
Qed.

Lemma insert_sorted_fmap (G : list string -> list string) (p : string * list string)
    (l : list (string * list string)) :
  URL.insert_sorted (prod_map id G p) (prod_map id G <$> l) =
  prod_map id G <$> URL.insert_sorted p l.
Proof.
  induction l as [|q l IH]; simpl; [reflexivity|].
  destruct (String.compare p.1 q.1); simpl; try reflexivity.
  f_equal. exact IH.
Qed.

Lemma sorted_entries_fmap (G : list string -> list string) (v : URL.Values) :
  URL.sorted_entries (G <$> v) = prod_map id G <$> URL.sorted_entries v.
Proof.
  unfold URL.sorted_entries. rewrite map_to_list_fmap.
  induction (map_to_list v) as [|p l IH]; simpl; [reflexivity|].
  rewrite <- insert_sorted_fmap. f_equal. exact IH.
Qed.

(** ** C7 *)

(** C7, as stated, fails: the second argument of [CheckIDSetup] is a
    callback path joined to the realm, so passing the return URL
    [https://rp.example/verify] with realm [https://rp.example] yields a
    different [return_to] than that URL, and not the URL carrying the
    claimed field set. *)
Lemma CheckIDSetup_return_to_is_realm_joined :
  CheckIDSetup net_ok 0 rp st0 E "https://rp.example/verify" =
    (Ok ("https://op.example/openid?openid.assoc_handle=AH1"
         +:+ "&openid.claimed_id=http%3A%2F%2Fspecs.openid.net%2Fauth%2F2.0%2Fidentifier"
         +:+ "&openid.identity=http%3A%2F%2Fspecs.openid.net%2Fauth%2F2.0%2Fidentifier_select"
         +:+ "&openid.mode=checkid_setup"
         +:+ "&openid.ns=http%3A%2F%2Fspecs.openid.net%2Fauth%2F2.0"
         +:+ "&openid.ns.sreg=http%3A%2F%2Fopenid.net%2Fextensions%2Fsreg%2F1.1"
         +:+ "&openid.return_to=https%3A%2F%2Frp.example%2Fhttps%3A%2F%2Frp.example%2Fverify"
         +:+ "&openid.sreg.required=nickname%2Cemail%2Cfullname"), st0) /\
  (CheckIDSetup net_ok 0 rp st0 E "https://rp.example/verify").1 <>
    Ok (E +:+ "?" +:+ URL.Encode (Wire.encodeHTTP ∅ (checkid_values "AH1" "https://rp.example/verify"))).
Proof. split; vm_compute; [reflexivity | discriminate]. Qed.

(** C7, amended: with an Association of handle [h] stored for
    [opEndpoint], [CheckIDSetup opEndpoint callbackPrefix] returns
    [opEndpoint ? query] where the query holds exactly the eight
    [openid.]-prefixed fields, in sorted order and form-encoded, with
    [return_to] the realm, a [/] and [callbackPrefix]; the state is
    unchanged. *)
Theorem CheckIDSetup_url (net : network) (now : Z) (o : OpenID) (st : state)
    (opEndpoint callbackPrefix : string) (a : Association) :
  Store.get (assocs st) opEndpoint = Some a ->
  CheckIDSetup net now o st opEndpoint callbackPrefix =
    (Ok (opEndpoint +:+ "?" +:+
         "openid.assoc_handle=" +:+ URL.QueryEscape (Handle a) +:+
         "&openid.claimed_id=http%3A%2F%2Fspecs.openid.net%2Fauth%2F2.0%2Fidentifier" +:+
         "&openid.identity=http%3A%2F%2Fspecs.openid.net%2Fauth%2F2.0%2Fidentifier_select" +:+
         "&openid.mode=checkid_setup" +:+
         "&openid.ns=http%3A%2F%2Fspecs.openid.net%2Fauth%2F2.0" +:+
         "&openid.ns.sreg=http%3A%2F%2Fopenid.net%2Fextensions%2Fsreg%2F1.1" +:+
         "&openid.return_to=" +:+ URL.QueryEscape (realm o +:+ "/" +:+ callbackPrefix) +:+
         "&openid.sreg.required=nickname%2Cemail%2Cfullname"), st).
Proof.
  intros Ha. unfold CheckIDSetup, associate. rewrite Ha.
  generalize (realm o +:+ "/" +:+ callbackPrefix) as r.
  generalize (Handle a) as h. intros h r.
  pose (g := fun x => if String.eqb x "<handle>" then h
                      else if String.eqb x "<return_to>" then r else x).
  assert (Hv : checkid_values h r = g <$> checkid_values "<handle>" "<return_to>").
  { unfold checkid_values. rewrite !fmap_insert, fmap_empty. reflexivity. }
  rewrite Hv, encodeHTTP_fmap. unfold URL.Encode. rewrite sorted_entries_fmap.
  let x := eval vm_compute in
    (URL.sorted_entries (Wire.encodeHTTP ∅ (checkid_values "<handle>" "<return_to>"))) in
  assert (Hs : URL.sorted_entries (Wire.encodeHTTP ∅ (checkid_values "<handle>" "<return_to>")) = x)
    by (vm_compute; reflexivity);
  rewrite Hs.
  vm_compute. reflexivity.
Qed.

Lemma CheckIDSetup_url_witness :
  Store.get (assocs st0) E = Some assoc0 /\
  CheckIDSetup net_ok 0 rp st0 E "verify" =
    (Ok ("https://op.example/openid?openid.assoc_handle=AH1"
         +:+ "&openid.claimed_id=http%3A%2F%2Fspecs.openid.net%2Fauth%2F2.0%2Fidentifier"
         +:+ "&openid.identity=http%3A%2F%2Fspecs.openid.net%2Fauth%2F2.0%2Fidentifier_select"
         +:+ "&openid.mode=checkid_setup"
         +:+ "&openid.ns=http%3A%2F%2Fspecs.openid.net%2Fauth%2F2.0"
         +:+ "&openid.ns.sreg=http%3A%2F%2Fopenid.net%2Fextensions%2Fsreg%2F1.1"
         +:+ "&openid.return_to=https%3A%2F%2Frp.example%2Fverify"
         +:+ "&openid.sreg.required=nickname%2Cemail%2Cfullname"), st0).
Proof.
  split; [vm_compute; reflexivity|].
  rewrite (CheckIDSetup_url net_ok 0 rp st0 E "verify" assoc0) by (vm_compute; reflexivity).
  vm_compute. reflexivity.
Defined.

(** ** C10 *)

(** C10, as stated, fails: a session holding a string under the user key
    makes [GetUser] panic on its type assertion. *)
Lemma GetUser_panics_on_other_type :
  Login.GetUser {[ Login.sesKeyOpenID := Login.DString "alice" ]} = Login.Panics.
Proof. vm_compute. reflexivity. Qed.

(** C10, amended: [GetUser] returns [(nil, false)] when the user key is
    absent and [(m, true)] when it holds a [map[string]string] [m] (the
    only type [ServeHTTP] stores there, after a successful [IDRes]), and
    panics on its type assertion when it holds a value of any other
    dynamic type. *)
Theorem GetUser_cases (s : Login.session) :
  (s !! Login.sesKeyOpenID = None -> Login.GetUser s = Login.Returns (None, false)) /\
  (forall m, s !! Login.sesKeyOpenID = Some (Login.DMapStringString m) ->
   Login.GetUser s = Login.Returns (Some m, true)) /\
  (forall v, s !! Login.sesKeyOpenID = Some v -> (forall m, v <> Login.DMapStringString m) ->
   Login.GetUser s = Login.Panics) /\
  (forall o st q user, IDRes o st q = Ok user ->
   Login.GetUser (Login.serve_verify o st q s) = Login.Returns (Some user, true)).
Proof.
  unfold Login.GetUser. split; [|split; [|split]].
  - intros H. rewrite H. reflexivity.
  - intros m H. rewrite H. reflexivity.
  - intros v H Hv. rewrite H.
    destruct v as [m| |]; [exfalso; exact (Hv m eq_refl) | reflexivity | reflexivity].
  - intros o st q user H. unfold Login.serve_verify. rewrite H.
    rewrite lookup_insert_eq. reflexivity.
Qed.

Lemma GetUser_cases_witness :
  Login.GetUser (Login.serve_verify rp st0 query0 ∅) =
    Login.Returns (Some (Wire.parseHTTP query0), true) /\
  Login.GetUser ∅ = Login.Returns (None, false).
Proof.
  destruct (GetUser_cases (Login.serve_verify rp st0 query0 ∅)) as [_ [_ [_ H]]].
  destruct (GetUser_cases ∅) as [H0 _].
  split.
  - apply (H rp st0 query0 (Wire.parseHTTP query0)). vm_compute. reflexivity.
  - apply H0. reflexivity.
Defined.

End Facts5.

Module Facts6.
Import OpenIDPkg Samples Facts Facts3 Facts4.

Lemma strip_prefix_app (p s : string) : GoStr.strip_prefix p (p +:+ s) = Some s.
Proof. induction p as [|c p IH]; simpl; [reflexivity|]. rewrite Ascii.eqb_refl. exact IH. Qed.

Lemma strip_prefix_some (p s t : string) : GoStr.strip_prefix p s = Some t -> s = p +:+ t.
Proof.
  revert s; induction p as [|c p IH]; intros s H; simpl in *.
  - injection H as <-. reflexivity.
  - destruct s as [|d s]; [discriminate|].
    destruct (Ascii.eqb_spec c d); [subst; rewrite (IH s H); reflexivity | discriminate].
Qed.

Lemma append_inj_l (p s t : string) : p +:+ s = p +:+ t -> s = t.
Proof. induction p as [|c p IH]; simpl; [done|]. intros H. injection H. exact IH. Qed.

(** Decoding a callback keeps exactly the [openid.]-prefixed fields,
    with the prefix removed. *)
Lemma parseHTTP_lookup (q : gmap string string) (k : string) :
  Wire.parseHTTP q !! k = q !! ("openid." +:+ k).
Proof.
  revert k. induction q as [|i x m Hi IH] using map_ind; intros k.
  - unfold Wire.parseHTTP. rewrite map_fold_empty, !lookup_empty. reflexivity.
  - unfold Wire.parseHTTP. rewrite map_fold_insert_L.
    + fold (Wire.parseHTTP m). rewrite lookup_insert.
      destruct (GoStr.strip_prefix "openid." i) as [k'|] eqn:Hs.
      * apply strip_prefix_some in Hs. subst i. rewrite lookup_insert.
        destruct (decide (k' = k)) as [->|Hne].
        -- rewrite decide_True by reflexivity. reflexivity.
        -- rewrite decide_False; [apply IH|]. intros Heq. apply append_inj_l in Heq. done.
      * rewrite decide_False; [apply IH|]. intros ->. rewrite strip_prefix_app in Hs. discriminate.
    + intros j1 j2 z1 z2 y Hne _ _.
      destruct (GoStr.strip_prefix "openid." j1) as [k1|] eqn:H1;
      destruct (GoStr.strip_prefix "openid." j2) as [k2|] eqn:H2; try reflexivity.
      apply insert_insert_ne. intros ->.
      apply strip_prefix_some in H1, H2. congruence.
    + exact Hi.
Qed.

(** ** Extras on openid.go *)

(** The claims [IDRes] returns are the callback's [openid.]-prefixed
    query fields with the prefix removed, and nothing else. *)
Theorem IDRes_claims_are_prefixed_fields (o : OpenID) (st : state) (q user : gmap string string) :
  IDRes o st q = Ok user -> forall k, user !! k = q !! ("openid." +:+ k).
Proof.
  unfold IDRes. destruct (Store.get _ _); [|discriminate].
  destruct (negb _); [discriminate|]. intros H. injection H as <-.
  apply parseHTTP_lookup.
Qed.

Lemma IDRes_claims_are_prefixed_fields_witness :
  IDRes rp st0 query0 = Ok (Wire.parseHTTP query0) /\
  Wire.parseHTTP query0 !! "identity" = Some "alice".
Proof.
  assert (H : IDRes rp st0 query0 = Ok (Wire.parseHTTP query0)) by (vm_compute; reflexivity).
  split; [exact H|].
  rewrite (IDRes_claims_are_prefixed_fields rp st0 query0 (Wire.parseHTTP query0) H "identity").
  vm_compute. reflexivity.
Defined.

Lemma parseHTTP_insert (q : gmap string string) (k v : string) :
  Wire.parseHTTP (<["openid." +:+ k := v]> q) = <[k := v]> (Wire.parseHTTP q).
Proof.
  apply map_eq. intros j. rewrite parseHTTP_lookup, !lookup_insert, parseHTTP_lookup.
  destruct (decide (k = j)) as [->|Hne].
  - rewrite decide_True by reflexivity. reflexivity.
  - rewrite decide_False; [reflexivity|]. intros Heq. apply append_inj_l in Heq. done.
Qed.

Lemma sign_buf_insert_unlisted (values : gmap string string) (k v : string) (l : list string) :
  k ∉ l -> sign_buf (<[k := v]> values) l = sign_buf values l.
Proof.
  intros Hk. unfold sign_buf. f_equal.
  induction l as [|j l IH]; simpl; [reflexivity|].
  apply not_elem_of_cons in Hk as [Hkj Hk].
  rewrite IH by exact Hk. f_equal. unfold GoStr.get.
  rewrite lookup_insert_ne by done. reflexivity.
Qed.

Lemma get_insert_ne (m : gmap string string) (k j v : string) :
  k <> j -> GoStr.get (<[k := v]> m) j = GoStr.get m j.
Proof. intros H. unfold GoStr.get. rewrite lookup_insert_ne by exact H. reflexivity. Qed.

(** Setting a callback field that is not named in [signed] (and is not
    [op_endpoint], [signed] or [sig]) never changes whether [IDRes]
    accepts: unsigned fields are not authenticated. *)
Theorem IDRes_ignores_unsigned_fields (o : OpenID) (st : state) (q : gmap string string)
    (k v : string) :
  k ∉ GoStr.Split (GoStr.get (Wire.parseHTTP q) "signed") ","%char ->
  k <> "op_endpoint" -> k <> "signed" -> k <> "sig" ->
  match IDRes o st q, IDRes o st (<["openid." +:+ k := v]> q) with
  | Ok u, Ok u' => u' = <[k := v]> u
  | Err e, Err e' => e = e'
  | _, _ => False
  end.
Proof.
  intros Hk Hep Hsg Hsig. unfold IDRes. rewrite parseHTTP_insert.
  rewrite !(get_insert_ne _ k) by done.
  destruct (Store.get _ _) as [a|]; [|reflexivity].
  unfold sign. rewrite sign_buf_insert_unlisted by exact Hk.
  destruct (negb _); reflexivity.
Qed.

Lemma IDRes_ignores_unsigned_fields_witness :
  ("mode" ∉ GoStr.Split (GoStr.get (Wire.parseHTTP query0) "signed") ","%char) /\
  IDRes rp st0 (<["openid.mode" := "tampered"]> query0) =
    Ok (<["mode" := "tampered"]> (Wire.parseHTTP query0)).
Proof.
  assert (Hk : "mode" ∉ GoStr.Split (GoStr.get (Wire.parseHTTP query0) "signed") ","%char).
  { vm_compute. intros H. repeat (apply elem_of_cons in H as [H|H]; [discriminate|]).
    apply elem_of_nil in H. exact H. }
  split; [exact Hk|].
  pose proof (IDRes_ignores_unsigned_fields rp st0 query0 "mode" "tampered" Hk
                ltac:(discriminate) ltac:(discriminate) ltac:(discriminate)) as H.
  assert (H0 : IDRes rp st0 query0 = Ok (Wire.parseHTTP query0)) by (vm_compute; reflexivity).
  rewrite H0 in H. change ("openid." +:+ "mode") with "openid.mode" in H.
  destruct (IDRes rp st0 (<["openid.mode" := "tampered"]> query0)); [|contradiction].
  rewrite H. reflexivity.
Defined.


(** [associate] only ever stores an Association under its own endpoint,
    and touches no other endpoint's entry. *)
Theorem associate_keeps_store_wf (net : network) (now : Z) (o : OpenID) (st : state) (ep : string) :
  store_wf st ->
  store_wf (associate net now o st ep).2 /\
  (forall k, k <> ep -> assocs (associate net now o st ep).2 !! k = assocs st !! k).
Proof.
  intros Hwf. unfold associate, Store.get, Store.set.
  destruct (assocs st !! ep) as [a|] eqn:Hg; [split; [exact Hwf|reflexivity]|].
  destruct (net _) as [|status [body|]]; simpl; [split; [exact Hwf|reflexivity]| |split; [exact Hwf|reflexivity]].
  destruct (Wire.parseKeyValue body) as [vals|]; simpl; [|split; [exact Hwf|reflexivity]].
  destruct (Base64.DecodeString _) as [secret|]; simpl; [|split; [exact Hwf|reflexivity]].
  destruct (Strconv.Atoi _) as [ei|]; simpl; [|split; [exact Hwf|reflexivity]].
  split.
  - intros k a'. simpl. rewrite lookup_insert.
    destruct (decide (ep = k)) as [<-|Hne].
    + intros H. injection H as <-. reflexivity.
    + apply Hwf.
  - intros k Hk. apply lookup_insert_ne. congruence.
Qed.

Lemma associate_keeps_store_wf_witness :
  store_wf empty /\ store_wf (associate net_ok 0 rp empty E).2.
Proof.
  assert (H : store_wf empty).
  { intros k a Hk. vm_compute in Hk. discriminate. }
  split; [exact H|]. exact (proj1 (associate_keeps_store_wf net_ok 0 rp empty E H)).
Defined.

(** [associate] issues no HTTP request when the endpoint has a stored
    Association, and exactly one, to [request_url], when it has none,
    whatever the outcome of the handshake. *)
Theorem associate_request_log (net : network) (now : Z) (o : OpenID) (st : state) (ep : string) :
  requests (associate net now o st ep).2 =
    requests st ++ match assocs st !! ep with
                   | Some _ => []
                   | None => [request_url o ep]
                   end.
Proof.
  unfold associate, Store.get.
  destruct (assocs st !! ep) as [a|]; simpl; [rewrite app_nil_r; reflexivity|].
  destruct (net _) as [|status [body|]]; simpl; try reflexivity.
  destruct (Wire.parseKeyValue body) as [vals|]; simpl; try reflexivity.
  destruct (Base64.DecodeString _) as [secret|]; simpl; try reflexivity.
  destruct (Strconv.Atoi _) as [ei|]; simpl; reflexivity.
Qed.

(** The handshake request of an [OpenID] made by [New] is the endpoint
    with the query [openid.assoc_type=hmac-sha256&openid.mode=associate],
    whatever the realm and the endpoint. *)
Theorem request_url_New (realm ep : string) :
  request_url (New realm) ep = ep +:+ "?openid.assoc_type=hmac-sha256&openid.mode=associate".
Proof. unfold request_url. simpl assocType. f_equal. Qed.

(** [CheckIDSetup] fails exactly when [associate] stores nothing for the
    endpoint: on failure the store is left as it was and the error is the
    association error; on success the endpoint has an Association. *)
Theorem CheckIDSetup_store (net : network) (now : Z) (o : OpenID) (st : state) (ep cb : string) :
  match CheckIDSetup net now o st ep cb with
  | (Err e, st') => e = ErrAssociate /\ assocs st' = assocs st
  | (Ok _, st') => exists a, assocs st' !! ep = Some a
  end.
Proof.
  unfold CheckIDSetup.
  destruct (assocs st !! ep) as [a0|] eqn:Hg.
  - unfold associate, Store.get. rewrite Hg. simpl. exists a0. exact Hg.
  - pose proof (associate_miss_state net now o st ep Hg) as [_ Hs].
    destruct (associate net now o st ep) as [[a|] st'] eqn:Ha; simpl in *.
    + exists a. rewrite Hs. apply lookup_insert_eq.
    + split; [reflexivity|exact Hs].
Qed.

(** [IDRes] reads neither the realm nor the Associations of other
    endpoints: two stores that agree on the callback's [op_endpoint]
    give the same verdict. *)
Theorem IDRes_reads_only_endpoint_entry (o o' : OpenID) (st st' : state) (q : gmap string string) :
  assocs st !! GoStr.get (Wire.parseHTTP q) "op_endpoint" =
    assocs st' !! GoStr.get (Wire.parseHTTP q) "op_endpoint" ->
  IDRes o st q = IDRes o' st' q.
Proof. intros H. unfold IDRes, Store.get. rewrite H. reflexivity. Qed.

Lemma IDRes_reads_only_endpoint_entry_witness :
  IDRes rp st0 query0 = IDRes (New "https://elsewhere.example")
        (mkState (<["https://other.example" := assoc_old]> (assocs st0)) []) query0.
Proof.
  apply IDRes_reads_only_endpoint_entry. vm_compute. reflexivity.
Defined.

Lemma encodeHTTP_lookup (v : URL.Values) (values : gmap string string) (k : string) :
  Wire.encodeHTTP v values !! ("openid." +:+ k) =
    match values !! k with Some x => Some [x] | None => v !! ("openid." +:+ k) end.
Proof.
  revert k. induction values as [|i x m Hi IH] using map_ind; intros k.
  - unfold Wire.encodeHTTP. rewrite map_fold_empty, lookup_empty. reflexivity.
  - unfold Wire.encodeHTTP. rewrite map_fold_insert_L.
    + fold (Wire.encodeHTTP v m). unfold URL.Set_. rewrite !lookup_insert.
      destruct (decide (i = k)) as [->|Hne].
      * rewrite decide_True by reflexivity. reflexivity.
      * rewrite decide_False; [apply IH|]. intros Heq. apply append_inj_l in Heq. done.
    + intros j1 j2 z1 z2 y Hne _ _. unfold URL.Set_.
      apply insert_insert_ne. intros Heq. apply append_inj_l in Heq. done.
    + exact Hi.
Qed.

(** Round trip of the wire codec: the query string built by [encodeHTTP]
    from a map of fields, read back with [Query().Get], decodes with
    [parseHTTP] to the same map. *)
Theorem parseHTTP_encodeHTTP (values : gmap string string) :
  Wire.parseHTTP (omap head (Wire.encodeHTTP ∅ values)) = values.
Proof.
  apply map_eq. intros k. rewrite parseHTTP_lookup, lookup_omap, encodeHTTP_lookup.
  destruct (values !! k); reflexivity.
Qed.
End Facts6.

Module Facts7.
Import OpenIDPkg Login LoginHandler Samples.

Lemma HasPrefix_app (p x : string) : HasPrefix (p +:+ x) p = true.
Proof. unfold HasPrefix. rewrite Facts6.strip_prefix_app. reflexivity. Qed.

Lemma eqb_suffix_ne (p a b : string) : a <> b -> String.eqb (p +:+ a) (p +:+ b) = false.
Proof.
  intros Hab. apply String.eqb_neq. intros H. apply Facts6.append_inj_l in H. exact (Hab H).
Qed.

Lemma eqb_refl' (s : string) : String.eqb s s = true.
Proof. apply String.eqb_refl. Qed.

Lemma method_gate (m : string) :
  get_method_ok m = true -> negb (String.eqb m "GET") && negb (String.eqb m "HEAD") = false.
Proof. unfold get_method_ok. destruct (String.eqb m "GET"), (String.eqb m "HEAD"); done. Qed.

Lemma GetUser_wf (s : session) : session_wf s -> GetUser s <> Panics.
Proof.
  intros [Hu _]. unfold GetUser.
  destruct (s !! sesKeyOpenID) as [v|] eqn:Hv; [|discriminate].
  destruct (Hu v eq_refl) as [m ->]. discriminate.
Qed.

(** The three routes of the handler, once the prefix, method and session
    checks passed. *)
Lemma ServeHTTP_login (net : network) (now : Z) (o : Handler) (st : state) (r : request) (s : session) :
  Path r = prefix o +:+ "/login" -> get_method_ok (Method r) = true ->
  ServeHTTP net now o st r (Some s) =
    let R := GoStr.get (Query r) urlKeyRedirect in
    let s := if negb (String.eqb R "") then <[sesKeyRedirect := DString R]> s else s in
    match CheckIDSetup net now (hopenid o) st (hendpoint o) (prefix o +:+ "/verify") with
    | (Err _, st) => Returns (NoResponse, Some s, st)
    | (Ok authURL, st) => Returns (Redirect authURL StatusFound, Some s, st)
    end.
Proof.
  intros Hp Hm. unfold ServeHTTP. rewrite Hp, HasPrefix_app, method_gate by exact Hm.
  simpl negb. cbv iota. rewrite eqb_refl'. reflexivity.
Qed.

Lemma ServeHTTP_logout (net : network) (now : Z) (o : Handler) (st : state) (r : request) (s : session) :
  Path r = prefix o +:+ "/logout" -> get_method_ok (Method r) = true ->
  ServeHTTP net now o st r (Some s) =
    let R := GoStr.get (Query r) urlKeyRedirect in
    let s := delete sesKeyOpenID s in
    if negb (String.eqb R "") then Returns (Redirect R StatusFound, Some (delete sesKeyRedirect s), st)
    else Returns (Written StatusAccepted ("logout" +:+ GoStr.nl), Some s, st).
Proof.
  intros Hp Hm. unfold ServeHTTP. rewrite Hp, HasPrefix_app, method_gate by exact Hm.
  simpl negb. cbv iota. rewrite eqb_suffix_ne by discriminate. rewrite eqb_refl'. reflexivity.
Qed.

Lemma ServeHTTP_verify (net : network) (now : Z) (o : Handler) (st : state) (r : request) (s : session) :
  Path r = prefix o +:+ "/verify" -> get_method_ok (Method r) = true ->
  ServeHTTP net now o st r (Some s) =
    match IDRes (hopenid o) st (Query r) with
    | Err _ => Returns (NoResponse, Some s, st)
    | Ok user =>
        let s := <[sesKeyOpenID := DMapStringString user]> s in
        match s !! sesKeyRedirect with
        | Some (DString redirect) => Returns (Redirect redirect StatusFound, Some (delete sesKeyRedirect s), st)
        | Some _ => Panics
        | None => Returns (Redirect (hrealm o) StatusFound, Some s, st)
        end
    end.
Proof.
  intros Hp Hm. unfold ServeHTTP. rewrite Hp, HasPrefix_app, method_gate by exact Hm.
  simpl negb. cbv iota. rewrite !eqb_suffix_ne by discriminate. rewrite eqb_refl'. reflexivity.
Qed.

(** ** Extras on login/id.go *)

(** The handler hands the request to [next], leaving the session and the
    Association store as they were, when the path lacks the prefix, the
    method is neither GET nor HEAD, there is no session, or the path is
    none of [prefix/login], [prefix/logout], [prefix/verify]. *)
Theorem ServeHTTP_passes_through (net : network) (now : Z) (o : Handler) (st : state)
    (r : request) (ses : option session) :
  HasPrefix (Path r) (prefix o) = false \/ get_method_ok (Method r) = false \/ ses = None \/
  (Path r <> prefix o +:+ "/login" /\ Path r <> prefix o +:+ "/logout" /\
   Path r <> prefix o +:+ "/verify") ->
  ServeHTTP net now o st r ses = Returns (CallNext, ses, st).
Proof.
  intros H. unfold ServeHTTP.
  destruct (HasPrefix (Path r) (prefix o)) eqn:Hp; [simpl negb; cbv iota|reflexivity].
  destruct (negb (String.eqb (Method r) "GET") && negb (String.eqb (Method r) "HEAD")) eqn:Hm;
    [reflexivity|].
  destruct ses as [s|]; [|reflexivity].
  destruct H as [H|[H|[H|(H1&H2&H3)]]]; [discriminate| |discriminate|].
  - unfold get_method_ok in H.
    destruct (String.eqb (Method r) "GET"), (String.eqb (Method r) "HEAD"); discriminate.
  - apply String.eqb_neq in H1, H2, H3. rewrite H1, H2, H3. reflexivity.
Qed.

Lemma ServeHTTP_passes_through_witness :
  HasPrefix "/static/app.js" "/openid" = false /\
  ServeHTTP net_ok 0 (New "/openid" "https://rp.example" E "") st0
    (mkRequest "/static/app.js" "GET" ∅) (Some ∅) = Returns (CallNext, Some ∅, st0).
Proof.
  split; [vm_compute; reflexivity|].
  exact (ServeHTTP_passes_through net_ok 0 (New "/openid" "https://rp.example" E "") st0
           (mkRequest "/static/app.js" "GET" ∅) (Some ∅) (or_introl eq_refl)).
Defined.

(** The [keyRedir] argument of [New] has no effect: the handler reads the
    redirect target from the fixed query key [redirect]. *)
Theorem ServeHTTP_ignores_keyRedir (net : network) (now : Z) (p re e k1 k2 : string)
    (st : state) (r : request) (ses : option session) :
  ServeHTTP net now (New p re e k1) st r ses = ServeHTTP net now (New p re e k2) st r ses.
Proof. reflexivity. Qed.

(** A session the handler only ever writes through its own routes keeps
    a user map under the user key and a string under the redirect key;
    the handler then never panics, and neither does [GetUser] afterwards. *)
Theorem ServeHTTP_keeps_session_wf (net : network) (now : Z) (o : Handler) (st : state)
    (r : request) (s : session) :
  session_wf s ->
  match ServeHTTP net now o st r (Some s) with
  | Returns (_, Some s', _) => session_wf s' /\ GetUser s' <> Panics
  | _ => False
  end.
Proof.
  intros Hwf.
  assert (Hfin : forall s', session_wf s' -> session_wf s' /\ GetUser s' <> Panics)
    by (intros s' H; split; [exact H|apply GetUser_wf, H]).
  destruct Hwf as [Hu Hr].
  unfold ServeHTTP.
  destruct (HasPrefix (Path r) (prefix o)); simpl negb; cbv iota; [|apply Hfin; split; assumption].
  destruct (_ && _); [apply Hfin; split; assumption|].
  destruct (String.eqb (Path r) _).
  - set (R := GoStr.get (Query r) urlKeyRedirect).
    assert (Hs : session_wf (if negb (String.eqb R "") then <[sesKeyRedirect := DString R]> s else s)).
    { destruct (negb _); [|split; assumption]. split; intros v.
      - rewrite lookup_insert_ne by discriminate. apply Hu.
      - rewrite lookup_insert_eq. intros H. injection H as <-. eauto. }
    destruct (CheckIDSetup _ _ _ _ _ _) as [[u|e] st']; apply Hfin, Hs.
  - destruct (String.eqb (Path r) _).
    + assert (Hs : session_wf (delete sesKeyOpenID s)).
      { split; intros v.
        - rewrite lookup_delete_eq. discriminate.
        - rewrite lookup_delete_ne by discriminate. apply Hr. }
      destruct (negb _); apply Hfin; [|exact Hs].
      destruct Hs as [Hu' Hr']. split; intros v.
      * rewrite lookup_delete_ne by discriminate. apply Hu'.
      * rewrite lookup_delete_eq. discriminate.
    + destruct (String.eqb (Path r) _); [|apply Hfin; split; assumption].
      destruct (IDRes _ _ _) as [user|e]; [|apply Hfin; split; assumption].
      rewrite lookup_insert_ne by discriminate.
      destruct (s !! sesKeyRedirect) as [v|] eqn:Hv.
      * destruct (Hr v eq_refl) as [u ->]. apply Hfin. split; intros v'.
        -- rewrite lookup_delete_ne by discriminate. rewrite lookup_insert_eq.
           intros H. injection H as <-. eauto.
        -- rewrite lookup_delete_eq. discriminate.
      * apply Hfin. split; intros v'.
        -- rewrite lookup_insert_eq. intros H. injection H as <-. eauto.
        -- rewrite lookup_insert_ne by discriminate. intros H. rewrite Hv in H. discriminate.
Qed.

Lemma ServeHTTP_keeps_session_wf_witness :
  session_wf (<[sesKeyRedirect := DString "/home"]> ∅) /\
  match ServeHTTP net_ok 0 (New "/openid" "https://rp.example" E "") st0
          (mkRequest "/openid/verify" "GET" query0) (Some (<[sesKeyRedirect := DString "/home"]> ∅)) with
  | Returns (_, Some s', _) => session_wf s' /\ GetUser s' <> Panics
  | _ => False
  end.
Proof.
  assert (H : session_wf (<[sesKeyRedirect := DString "/home"]> ∅)).
  { split; intros v Hv; vm_compute in Hv; [discriminate|]. injection Hv as <-. eauto. }
  split; [exact H|]. exact (ServeHTTP_keeps_session_wf net_ok 0 (New "/openid" "https://rp.example" E "") st0
           (mkRequest "/openid/verify" "GET" query0) (<[sesKeyRedirect := DString "/home"]> ∅) H).
Defined.


(** The login route never marks the user as logged in; it remembers a
    non-empty [redirect] query value, even when the association fails,
    and redirects to the provider exactly when [CheckIDSetup] succeeds,
    with [prefix/verify] as callback. *)
Theorem ServeHTTP_login_route (net : network) (now : Z) (o : Handler) (st : state)
    (r : request) (s : session) :
  Path r = prefix o +:+ "/login" -> get_method_ok (Method r) = true ->
  let R := GoStr.get (Query r) urlKeyRedirect in
  let c := CheckIDSetup net now (hopenid o) st (hendpoint o) (prefix o +:+ "/verify") in
  match ServeHTTP net now o st r (Some s) with
  | Returns (resp, Some s', st') =>
      s' !! sesKeyOpenID = s !! sesKeyOpenID /\
      s' !! sesKeyRedirect = (if String.eqb R "" then s !! sesKeyRedirect else Some (DString R)) /\
      resp = match c.1 with Ok u => Redirect u StatusFound | Err _ => NoResponse end /\
      st' = c.2
  | _ => False
  end.
Proof.
  intros Hp Hm R c. rewrite (ServeHTTP_login net now o st r s Hp Hm). cbv zeta.
  fold R. fold c.
  assert (Hs : let s' := if negb (String.eqb R "") then <[sesKeyRedirect := DString R]> s else s in
               s' !! sesKeyOpenID = s !! sesKeyOpenID /\
               s' !! sesKeyRedirect = (if String.eqb R "" then s !! sesKeyRedirect else Some (DString R))).
  { destruct (String.eqb R ""); simpl; [split; reflexivity|].
    split; [apply lookup_insert_ne; discriminate|apply lookup_insert_eq]. }
  destruct c as [[u|e] st'] eqn:Hc; simpl in *; destruct Hs as [H1 H2];
    (split; [exact H1|split; [exact H2|split; reflexivity]]).
Qed.

Lemma ServeHTTP_login_route_witness :
  ("/openid/login" = "/openid" +:+ "/login" /\ get_method_ok "GET" = true) /\
  (let o := New "/openid" "https://rp.example" E "" in
   let r := mkRequest "/openid/login" "GET" (<["redirect" := "/home"]> ∅) in
   let R := GoStr.get (Query r) urlKeyRedirect in
   let c := CheckIDSetup net_ok 0 (hopenid o) empty (hendpoint o) (prefix o +:+ "/verify") in
   match ServeHTTP net_ok 0 o empty r (Some ∅) with
   | Returns (resp, Some s', st') =>
       s' !! sesKeyOpenID = (∅ : session) !! sesKeyOpenID /\
       s' !! sesKeyRedirect = (if String.eqb R "" then (∅ : session) !! sesKeyRedirect else Some (DString R)) /\
       resp = match c.1 with Ok u => Redirect u StatusFound | Err _ => NoResponse end /\
       st' = c.2
   | _ => False
   end).
Proof.
  split; [split; reflexivity|].
  exact (ServeHTTP_login_route net_ok 0 (New "/openid" "https://rp.example" E "") empty
           (mkRequest "/openid/login" "GET" (<["redirect" := "/home"]> ∅)) ∅ eq_refl eq_refl).
Defined.

(** The logout route always forgets the user; with a non-empty
    [redirect] query value it redirects there and drops the stored
    redirect target, otherwise it answers 202 with [logout\n]. *)
Theorem ServeHTTP_logout_route (net : network) (now : Z) (o : Handler) (st : state)
    (r : request) (s : session) :
  Path r = prefix o +:+ "/logout" -> get_method_ok (Method r) = true ->
  let R := GoStr.get (Query r) urlKeyRedirect in
  match ServeHTTP net now o st r (Some s) with
  | Returns (resp, Some s', st') =>
      st' = st /\ GetUser s' = Returns (None, false) /\
      (if String.eqb R ""
       then resp = Written StatusAccepted ("logout" +:+ GoStr.nl) /\
            s' !! sesKeyRedirect = s !! sesKeyRedirect
       else resp = Redirect R StatusFound /\ s' !! sesKeyRedirect = None)
  | _ => False
  end.
Proof.
  intros Hp Hm R. rewrite (ServeHTTP_logout net now o st r s Hp Hm). cbv zeta. fold R.
  unfold GetUser.
  destruct (String.eqb R ""); simpl.
  - rewrite lookup_delete_eq, lookup_delete_ne by discriminate.
    split; [reflexivity|split; [reflexivity|split; reflexivity]].
  - rewrite lookup_delete_ne by discriminate. rewrite lookup_delete_eq, lookup_delete_eq.
    split; [reflexivity|split; [reflexivity|split; reflexivity]].
Qed.

Lemma ServeHTTP_logout_route_witness :
  ("/openid/logout" = "/openid" +:+ "/logout" /\ get_method_ok "HEAD" = true) /\
  match ServeHTTP net_ok 0 (New "/openid" "https://rp.example" E "") st0
          (mkRequest "/openid/logout" "HEAD" ∅)
          (Some (<[sesKeyOpenID := DMapStringString ∅]> ∅)) with
  | Returns (resp, Some s', st') =>
      st' = st0 /\ GetUser s' = Returns (None, false) /\
      (if String.eqb (GoStr.get ∅ urlKeyRedirect) ""
       then resp = Written StatusAccepted ("logout" +:+ GoStr.nl) /\
            s' !! sesKeyRedirect = (<[sesKeyOpenID := DMapStringString ∅]> ∅ : session) !! sesKeyRedirect
       else resp = Redirect (GoStr.get ∅ urlKeyRedirect) StatusFound /\ s' !! sesKeyRedirect = None)
  | _ => False
  end.
Proof.
  split; [split; reflexivity|].
  exact (ServeHTTP_logout_route net_ok 0 (New "/openid" "https://rp.example" E "") st0
           (mkRequest "/openid/logout" "HEAD" ∅) (<[sesKeyOpenID := DMapStringString ∅]> ∅)
           eq_refl eq_refl).
Defined.

(** A callback that [IDRes] rejects leaves the session and the store
    untouched and writes no response. *)
Theorem ServeHTTP_verify_rejected (net : network) (now : Z) (o : Handler) (st : state)
    (r : request) (s : session) (e : error) :
  Path r = prefix o +:+ "/verify" -> get_method_ok (Method r) = true ->
  IDRes (hopenid o) st (Query r) = Err e ->
  ServeHTTP net now o st r (Some s) = Returns (NoResponse, Some s, st).
Proof.
  intros Hp Hm He. rewrite (ServeHTTP_verify net now o st r s Hp Hm), He. reflexivity.
Qed.

Lemma ServeHTTP_verify_rejected_witness :
  IDRes (hopenid (New "/openid" "https://rp.example" E "")) st0 ∅ = Err (ErrNoAssociation "") /\
  ServeHTTP net_ok 0 (New "/openid" "https://rp.example" E "") st0
    (mkRequest "/openid/verify" "GET" ∅) (Some ∅) = Returns (NoResponse, Some ∅, st0).
Proof.
  assert (He : IDRes (hopenid (New "/openid" "https://rp.example" E "")) st0 ∅ =
               Err (ErrNoAssociation "")) by (vm_compute; reflexivity).
  split; [exact He|].
  exact (ServeHTTP_verify_rejected net_ok 0 (New "/openid" "https://rp.example" E "") st0
           (mkRequest "/openid/verify" "GET" ∅) ∅ (ErrNoAssociation "") eq_refl eq_refl He).
Defined.

(** An accepted callback with no stored redirect target logs the user in
    and redirects to the realm. *)
Theorem ServeHTTP_verify_to_realm (net : network) (now : Z) (o : Handler) (st : state)
    (r : request) (s : session) (user : gmap string string) :
  Path r = prefix o +:+ "/verify" -> get_method_ok (Method r) = true ->
  s !! sesKeyRedirect = None ->
  IDRes (hopenid o) st (Query r) = Ok user ->
  exists s', ServeHTTP net now o st r (Some s) = Returns (Redirect (hrealm o) StatusFound, Some s', st) /\
             GetUser s' = Returns (Some user, true).
Proof.
  intros Hp Hm Hn Hi. rewrite (ServeHTTP_verify net now o st r s Hp Hm), Hi. cbv zeta.
  rewrite lookup_insert_ne by discriminate. rewrite Hn.
  eexists. split; [reflexivity|]. unfold GetUser. rewrite lookup_insert_eq. reflexivity.
Qed.

Lemma ServeHTTP_verify_to_realm_witness :
  IDRes (hopenid (New "/openid" "https://rp.example" E "")) st0 query0 = Ok (Wire.parseHTTP query0) /\
  exists s', ServeHTTP net_ok 0 (New "/openid" "https://rp.example" E "") st0
               (mkRequest "/openid/verify" "GET" query0) (Some ∅) =
             Returns (Redirect "https://rp.example" StatusFound, Some s', st0) /\
             GetUser s' = Returns (Some (Wire.parseHTTP query0), true).
Proof.
  assert (Hi : IDRes (hopenid (New "/openid" "https://rp.example" E "")) st0 query0 =
               Ok (Wire.parseHTTP query0)) by (vm_compute; reflexivity).
  split; [exact Hi|].
  exact (ServeHTTP_verify_to_realm net_ok 0 (New "/openid" "https://rp.example" E "") st0
           (mkRequest "/openid/verify" "GET" query0) ∅ (Wire.parseHTTP query0)
           eq_refl eq_refl eq_refl Hi).
Defined.

(** Login followed by an accepted callback: the [redirect] value given
    at login is where the user lands after verification, the user map
    [IDRes] returned is what [GetUser] reads, and the stored redirect
    target is consumed. *)
Theorem ServeHTTP_login_then_verify (net net' : network) (now now' : Z) (o : Handler)
    (st st1 : state) (r1 r2 : request) (s : session) (u : string) (user : gmap string string) :
  Path r1 = prefix o +:+ "/login" -> get_method_ok (Method r1) = true ->
  GoStr.get (Query r1) urlKeyRedirect <> "" ->
  CheckIDSetup net now (hopenid o) st (hendpoint o) (prefix o +:+ "/verify") = (Ok u, st1) ->
  Path r2 = prefix o +:+ "/verify" -> get_method_ok (Method r2) = true ->
  IDRes (hopenid o) st1 (Query r2) = Ok user ->
  exists s1 s2,
    ServeHTTP net now o st r1 (Some s) = Returns (Redirect u StatusFound, Some s1, st1) /\
    ServeHTTP net' now' o st1 r2 (Some s1) =
      Returns (Redirect (GoStr.get (Query r1) urlKeyRedirect) StatusFound, Some s2, st1) /\
    GetUser s2 = Returns (Some user, true) /\ s2 !! sesKeyRedirect = None.
Proof.
  intros Hp1 Hm1 HR Hc Hp2 Hm2 Hi.
  rewrite (ServeHTTP_login net now o st r1 s Hp1 Hm1). cbv zeta.
  apply String.eqb_neq in HR. rewrite HR, Hc. simpl negb. cbv iota.
  eexists. eexists. split; [reflexivity|].
  rewrite (ServeHTTP_verify net' now' o st1 r2 _ Hp2 Hm2), Hi. cbv zeta.
  rewrite lookup_insert_ne by discriminate. rewrite lookup_insert_eq.
  split; [reflexivity|]. unfold GetUser.
  rewrite lookup_delete_ne by discriminate. rewrite lookup_insert_eq.
  split; [reflexivity|]. apply lookup_delete_eq.
Qed.

Lemma ServeHTTP_login_then_verify_witness :
  let o := New "/openid" "https://rp.example" E "" in
  let u := match (CheckIDSetup net_ok 0 (hopenid o) st0 (hendpoint o) (prefix o +:+ "/verify")).1 with
           | Ok u => u | Err _ => "" end in
  CheckIDSetup net_ok 0 (hopenid o) st0 (hendpoint o) (prefix o +:+ "/verify") = (Ok u, st0) /\
  exists s1 s2,
    ServeHTTP net_ok 0 o st0 (mkRequest "/openid/login" "GET" (<["redirect" := "/home"]> ∅)) (Some ∅) =
      Returns (Redirect u StatusFound, Some s1, st0) /\
    ServeHTTP net_ok 0 o st0 (mkRequest "/openid/verify" "GET" query0) (Some s1) =
      Returns (Redirect "/home" StatusFound, Some s2, st0) /\
    GetUser s2 = Returns (Some (Wire.parseHTTP query0), true) /\ s2 !! sesKeyRedirect = None.
Proof.
  intros o u.
  assert (Hc : CheckIDSetup net_ok 0 (hopenid o) st0 (hendpoint o) (prefix o +:+ "/verify") =
               (Ok u, st0)) by (vm_compute; reflexivity).
  assert (Hi : IDRes (hopenid o) st0 query0 = Ok (Wire.parseHTTP query0)) by (vm_compute; reflexivity).
  split; [exact Hc|].
  assert (A1 : Path (mkRequest "/openid/login" "GET" (<["redirect" := "/home"]> ∅)) = prefix o +:+ "/login") by reflexivity.
  assert (A2 : get_method_ok (Method (mkRequest "/openid/login" "GET" (<["redirect" := "/home"]> ∅))) = true) by reflexivity.
  assert (A3 : GoStr.get (Query (mkRequest "/openid/login" "GET" (<["redirect" := "/home"]> ∅))) urlKeyRedirect <> "") by (vm_compute; discriminate).
  assert (A4 : Path (mkRequest "/openid/verify" "GET" query0) = prefix o +:+ "/verify") by reflexivity.
  assert (A5 : get_method_ok (Method (mkRequest "/openid/verify" "GET" query0)) = true) by reflexivity.
  change query0 with (Query (mkRequest "/openid/verify" "GET" query0)) in Hi at 1.
  pose proof (ServeHTTP_login_then_verify net_ok net_ok 0 0 o st0 st0
           (mkRequest "/openid/login" "GET" (<["redirect" := "/home"]> ∅))
           (mkRequest "/openid/verify" "GET" query0) ∅ u (Wire.parseHTTP query0)
           A1 A2 A3 Hc A4 A5 Hi) as H.
  exact H.
Defined.

End Facts7.
